(** * Travel planner client: the session script [static/script.js]

    A shallow embedding of the browser script that drives one planning
    session over a WebSocket, and the properties of its message handling,
    input validation and selection submission.

    JavaScript strings are sequences of UTF-16 code units; they are
    modelled as [list N].  The page is a finite map from element ids to
    elements, the WebSocket objects live in a heap indexed by creation
    order, and every function of the script is a computation in a small
    state-and-exception monad over that store.

    What is taken from the browser rather than from the script: the
    elements the script names are not nested in one another and carry the
    properties it uses; [marked.parse] returns a string for every string;
    the constructor [WebSocket] accepts the script's fixed URL; inbound
    messages are text.  [copyReport] (clipboard and timer) is left out. *)

From Stdlib Require Import NArith Ascii String.
From stdpp Require Import gmap strings list.

Open Scope N_scope.

(** ** JavaScript strings *)

Module JsString.

(** A string literal of the script, as code units. *)
Definition lit (s : string) : list N :=
  (fun a : ascii => N_of_ascii a) <$> list_ascii_of_string s.

(** [s.startsWith(p)]: [p] occurs in [s] at position 0. *)
Fixpoint startsWith (s p : list N) : bool :=
  match p, s with
  | [], _ => true
  | _ :: _, [] => false
  | c :: p', d :: s' => (d =? c) && startsWith s' p'
  end.

(** [s.includes(p)]: [p] occurs in [s] at some position. *)
Fixpoint includes (s p : list N) : bool :=
  startsWith s p ||
  match s with
  | [] => false
  | _ :: s' => includes s' p
  end.

(** [s.replace(p, r)] with a string pattern [p]: only the first
    occurrence of [p] is replaced.  The replacement [r] is inserted as
    it is (the script only ever passes the empty string, which has no
    [$] patterns to expand). *)
Fixpoint replace (s p r : list N) : list N :=
  if startsWith s p then r ++ drop (length p) s
  else match s with
       | [] => []
       | c :: s' => c :: replace s' p r
       end.

(** The code units [String.prototype.trim] strips: WhiteSpace (TAB, VT,
    FF, ZWNBSP and the Unicode space separators) and LineTerminator
    (LF, CR, LS, PS). *)
Definition isWhiteSpace (c : N) : bool :=
  (c =? 9) || (c =? 10) || (c =? 11) || (c =? 12) || (c =? 13) ||
  (c =? 32) || (c =? 160) || (c =? 5760) ||
  ((8192 <=? c) && (c <=? 8202)) ||
  (c =? 8232) || (c =? 8233) || (c =? 8239) || (c =? 8287) ||
  (c =? 12288) || (c =? 65279).

Fixpoint trimStart (s : list N) : list N :=
  match s with
  | [] => []
  | c :: s' => if isWhiteSpace c then trimStart s' else s
  end.

Definition trimEnd (s : list N) : list N :=
  reverse (trimStart (reverse s)).

(** [s.trim()]. *)
Definition trim (s : list N) : list N := trimEnd (trimStart s).

(** Truthiness of a string: only the empty string is falsy. *)
Definition truthy (s : list N) : bool :=
  match s with [] => false | _ :: _ => true end.

End JsString.

Import JsString.

(** The two literals the message handler looks for. *)
Definition PROMPT : list N :=
  Eval cbv in lit "Please review the options and select the correct option".

Definition SENTINEL : list N :=
  Eval cbv in lit "Itinerary generated successfully!".

(** ** The page and the connections *)

(** A child node of an element: a [div] built by [document.createElement]
    with its class and text set, or the nodes an HTML source parses to. *)
Inductive Node :=
  | Div (className : string) (textContent : list N)
  | Html (source : list N).

(** An element of the page: the [value] of an input, [style.display], and
    the child nodes. *)
Record Element := mkElement {
  value : list N;
  style_display : string;
  childNodes : list Node
}.

(** A reference to an element as [document.getElementById] returns it:
    [None] is [null].  The script never adds, removes or renames an element
    that has an id, so the id identifies the element. *)
Abbreviation ElemRef := (option string).

(** The variables the [onmessage] closure captures. *)
Record Handler := mkHandler {
  progressDiv : ElemRef;
  optionSelectionDiv : ElemRef;
  itineraryDiv : ElemRef;
  copyButton : ElemRef
}.

Inductive ReadyState := CONNECTING | OPEN | CLOSING | CLOSED.

(** A WebSocket object: [sent] lists the messages handed to the network. *)
Record WebSocket := mkWebSocket {
  url : string;
  readyState : ReadyState;
  onmessage : option Handler;
  sent : list (list N)
}.

(** What the script asks of the window besides the page and the sockets. *)
Inductive Effect :=
  | Alert (message : string)
  | AnimationFrame (scrolled : ElemRef).

(** The store: the page by id, the globals [ws] and
    [currentMarkdownContent], the heap of sockets and the trace of window
    effects. *)
Record State := mkState {
  document : gmap string Element;
  ws : option nat;
  currentMarkdownContent : list N;
  sockets : list WebSocket;
  effects : list Effect
}.

Definition with_document (d : gmap string Element) (st : State) : State :=
  mkState d (ws st) (currentMarkdownContent st) (sockets st) (effects st).

Definition with_ws (w : option nat) (st : State) : State :=
  mkState (document st) w (currentMarkdownContent st) (sockets st) (effects st).

Definition with_currentMarkdownContent (c : list N) (st : State) : State :=
  mkState (document st) (ws st) c (sockets st) (effects st).

Definition with_sockets (l : list WebSocket) (st : State) : State :=
  mkState (document st) (ws st) (currentMarkdownContent st) l (effects st).

Definition with_effects (l : list Effect) (st : State) : State :=
  mkState (document st) (ws st) (currentMarkdownContent st) (sockets st) l.

(** ** The monad of the script: state and exceptions *)

Inductive Error := TypeError | InvalidStateError.

Inductive Completion (A : Type) :=
  | Normal (a : A)
  | Throw (e : Error).

Arguments Normal {A} a.
Arguments Throw {A} e.

Definition M (A : Type) : Type := State -> Completion A * State.

Definition ret {A} (a : A) : M A := fun st => (Normal a, st).

Definition bind {A B} (m : M A) (k : A -> M B) : M B :=
  fun st =>
    match m st with
    | (Normal a, st') => k a st'
    | (Throw e, st') => (Throw e, st')
    end.

Declare Scope js_scope.
Delimit Scope js_scope with js.
Notation "'let*' x ':=' m 'in' k" := (bind m (fun x => k))
  (at level 10, x name, m at level 100, k at level 200) : js_scope.
Notation "m ';;;' k" := (bind m (fun _ => k))
  (at level 100, k at level 200, right associativity) : js_scope.

Open Scope js_scope.

(** *** Primitive operations on the store *)

(** Reading and assigning the two globals. *)
Definition get_ws : M (option nat) :=
  fun st => (Normal (ws st), st).

Definition put_ws (w : option nat) : M unit :=
  fun st => (Normal tt, with_ws w st).

Definition get_currentMarkdownContent : M (list N) :=
  fun st => (Normal (currentMarkdownContent st), st).

Definition put_currentMarkdownContent (c : list N) : M unit :=
  fun st => (Normal tt, with_currentMarkdownContent c st).

(** [document.getElementById(id)]: the element, or [null]. *)
Definition getElementById (id : string) : M ElemRef :=
  fun st =>
    match document st !! id with
    | Some _ => (Normal (Some id), st)
    | None => (Normal None, st)
    end.

(** Reading a property of [r]; a [TypeError] when [r] is [null]. *)
Definition getProp {A} (r : ElemRef) (prop : Element -> A) : M A :=
  fun st =>
    match r with
    | Some id =>
        match document st !! id with
        | Some e => (Normal (prop e), st)
        | None => (Throw TypeError, st)
        end
    | None => (Throw TypeError, st)
    end.

(** Writing to [r]; a [TypeError] when [r] is [null]. *)
Definition setProp (r : ElemRef) (f : Element -> Element) : M unit :=
  fun st =>
    match r with
    | Some id =>
        match document st !! id with
        | Some e => (Normal tt, with_document (<[id := f e]> (document st)) st)
        | None => (Throw TypeError, st)
        end
    | None => (Throw TypeError, st)
    end.

Definition set_value (v : list N) (e : Element) : Element :=
  mkElement v (style_display e) (childNodes e).

Definition set_display (d : string) (e : Element) : Element :=
  mkElement (value e) d (childNodes e).

(** [e.innerHTML = h]: the children are replaced by what [h] parses to;
    the empty source leaves no child. *)
Definition set_innerHTML (h : list N) (e : Element) : Element :=
  mkElement (value e) (style_display e)
    (match h with [] => [] | _ :: _ => [Html h] end).

(** [e.appendChild(n)]. *)
Definition appendChild (n : Node) (e : Element) : Element :=
  mkElement (value e) (style_display e) (childNodes e ++ [n]).

Definition alert (message : string) : M unit :=
  fun st => (Normal tt, with_effects (effects st ++ [Alert message]) st).

Definition requestAnimationFrame (scrolled : ElemRef) : M unit :=
  fun st => (Normal tt, with_effects (effects st ++ [AnimationFrame scrolled]) st).

(** [new WebSocket(url)]: a fresh socket, still connecting. *)
Definition new_WebSocket (u : string) : M nat :=
  fun st =>
    (Normal (length (sockets st)),
     with_sockets (sockets st ++ [mkWebSocket u CONNECTING None []]) st).

(** [sock.onmessage = h]. *)
Definition set_onmessage (sock : nat) (h : Handler) : M unit :=
  fun st =>
    match sockets st !! sock with
    | Some s =>
        (Normal tt,
         with_sockets
           (<[sock := mkWebSocket (url s) (readyState s) (Some h) (sent s)]>
              (sockets st)) st)
    | None => (Throw TypeError, st)
    end.

(** [sock.send(data)]: an [InvalidStateError] while connecting; handed to
    the network when open; silently discarded when closing or closed. *)
Definition ws_send (sock : nat) (data : list N) : M unit :=
  fun st =>
    match sockets st !! sock with
    | Some s =>
        match readyState s with
        | CONNECTING => (Throw InvalidStateError, st)
        | OPEN =>
            (Normal tt,
             with_sockets
               (<[sock := mkWebSocket (url s) OPEN (onmessage s) (sent s ++ [data])]>
                  (sockets st)) st)
        | CLOSING | CLOSED => (Normal tt, st)
        end
    | None => (Throw TypeError, st)
    end.

(** ** The script *)

(** [validateInputs()]. *)
Definition validateInputs : M bool :=
  let* e1 := getElementById "destination" in
  let* v1 := getProp e1 value in
  let destination := trim v1 in
  let* e2 := getElementById "travelDate" in
  let* v2 := getProp e2 value in
  let travelDate := trim v2 in
  if negb (truthy destination) then
    alert "Please enter a destination" ;;;
    ret false
  else if negb (truthy travelDate) then
    alert "Please enter a travel date" ;;;
    ret false
  else ret true.

Section Script.

(** [marked.parse] of the Markdown library the page loads: from Markdown
    source to HTML source. *)
Variable marked_parse : list N -> list N.

(** The function assigned to [ws.onmessage], over the variables [h] of
    the enclosing call of [startPlanning]. *)
Definition ws_onmessage (h : Handler) (message : list N) : M unit :=
  (if includes message PROMPT then
     setProp (optionSelectionDiv h) (set_display "block")
   else ret tt) ;;;
  (if startsWith message SENTINEL then
     put_currentMarkdownContent (trim (replace message SENTINEL [])) ;;;
     (let* content := get_currentMarkdownContent in
      setProp (itineraryDiv h) (set_innerHTML (marked_parse content))) ;;;
     setProp (copyButton h) (set_display "block")
   else
     let messageElement := Div "progress-message" message in
     setProp (progressDiv h) (appendChild messageElement)) ;;;
  requestAnimationFrame (progressDiv h).

(** [startPlanning()]. *)
Definition startPlanning : M unit :=
  let* valid := validateInputs in
  if negb valid then ret tt
  else
    let* progressDiv := getElementById "progress" in
    let* optionSelectionDiv := getElementById "option-selection" in
    let* itineraryDiv := getElementById "itinerary" in
    let* copyButton := getElementById "copyButton" in
    setProp progressDiv (set_innerHTML []) ;;;
    setProp itineraryDiv (set_innerHTML []) ;;;
    setProp optionSelectionDiv (set_display "none") ;;;
    setProp copyButton (set_display "none") ;;;
    put_currentMarkdownContent [] ;;;
    let* sock := new_WebSocket "ws://127.0.0.1:5000/ws" in
    put_ws (Some sock) ;;;
    set_onmessage sock
      (mkHandler progressDiv optionSelectionDiv itineraryDiv copyButton).

End Script.

(** [submitClusterSelection()]. *)
Definition submitClusterSelection : M unit :=
  let* input := getElementById "cluster-input" in
  let* clusterSelection := getProp input value in
  let* w := get_ws in
  match w with
  | Some sock =>
      if truthy clusterSelection then
        ws_send sock clusterSelection ;;;
        (let* box := getElementById "cluster-selection" in
         setProp box (set_display "none")) ;;;
        (let* input' := getElementById "cluster-input" in
         setProp input' (set_value []))
      else ret tt
  | None => ret tt
  end.

(** ** The environment: what the browser and the user do *)

(** The handler every socket of the script carries: [startPlanning] only
    installs it after the four elements were found and written to. *)
Definition installedHandler : Handler :=
  mkHandler (Some "progress") (Some "option-selection")
            (Some "itinerary") (Some "copyButton").

(** The connection of [sock] is established. *)
Definition socket_open (sock : nat) (st : State) : State :=
  match sockets st !! sock with
  | Some s =>
      with_sockets
        (<[sock := mkWebSocket (url s) OPEN (onmessage s) (sent s)]> (sockets st)) st
  | None => st
  end.

(** The connection of [sock] is closed or lost. *)
Definition socket_close (sock : nat) (st : State) : State :=
  match sockets st !! sock with
  | Some s =>
      with_sockets
        (<[sock := mkWebSocket (url s) CLOSED (onmessage s) (sent s)]> (sockets st)) st
  | None => st
  end.

(** The user types [text] into the input [id]. *)
Definition user_input (id : string) (text : list N) (st : State) : State :=
  with_document (alter (set_value text) id (document st)) st.

Section Inbound.

Variable marked_parse : list N -> list N.

(** A message event on [sock]: the browser calls the socket's handler,
    when the socket is open and has one. *)
Definition deliver (sock : nat) (message : list N) : M unit :=
  fun st =>
    match sockets st !! sock with
    | Some (mkWebSocket _ OPEN (Some h) _) => ws_onmessage marked_parse h message st
    | _ => (Normal tt, st)
    end.

(** The inbound messages [ms], handled by [h] in arrival order. *)
Fixpoint onmessages (h : Handler) (ms : list (list N)) : M unit :=
  match ms with
  | [] => ret tt
  | m :: ms' => ws_onmessage marked_parse h m ;;; onmessages h ms'
  end.

(** One event of a page's life: a call into the script, a socket event or
    the user typing. *)
Inductive step : State -> State -> Prop :=
  | step_start st : step st (snd (startPlanning st))
  | step_submit st : step st (snd (submitClusterSelection st))
  | step_message sock message st : step st (snd (deliver sock message st))
  | step_open sock st : step st (socket_open sock st)
  | step_close sock st : step st (socket_close sock st)
  | step_input id text st : step st (user_input id text st).

(** The states a page can be in, from the moment it is loaded. *)
Inductive reachable : State -> Prop :=
  | reach_load d : reachable (mkState d None [] [] [])
  | reach_step st st' : reachable st -> step st st' -> reachable st'.

End Inbound.

(** ** Observations of a session *)

(** The progress log: the children of the progress element. *)
Definition log (st : State) : list Node :=
  from_option childNodes [] (document st !! "progress").

(** The line [message] as the handler appends it to the log. *)
Definition progressLine (message : list N) : Node :=
  Div "progress-message" message.

(** [style.display] of the element [id]. *)
Definition displayOf (id : string) (st : State) : option string :=
  style_display <$> document st !! id.

(** The pending-selection flag: the option-selection box is shown. *)
Definition isAwaitingSelection (st : State) : bool :=
  bool_decide (displayOf "option-selection" st = Some "block").

(** Everything handed to the network so far, per socket. *)
Definition outbound (st : State) : list (list (list N)) :=
  sent <$> sockets st.

(** The elements the message handler writes to are on the page. *)
Definition ready (st : State) : Prop :=
  is_Some (document st !! "progress") /\
  is_Some (document st !! "option-selection") /\
  is_Some (document st !! "itinerary") /\
  is_Some (document st !! "copyButton").

(** From [st] to [st'] the page kept its elements and the sockets kept
    their handlers. *)
Definition framed (st st' : State) : Prop :=
  dom (document st') = dom (document st) /\
  onmessage <$> sockets st' = onmessage <$> sockets st.

(** Every handler on a socket is the one [startPlanning] installs, and the
    elements it writes to are on the page. *)
Definition sound (st : State) : Prop :=
  forall i s h, sockets st !! i = Some s -> onmessage s = Some h ->
                h = installedHandler /\ ready st.

(** The final content after the inbound lines [ms], from content [c]: the
    trimmed payload of the last Terminal line, if any. *)
Definition contentAfter (c : list N) (ms : list (list N)) : list N :=
  foldl (fun c m => if startsWith m SENTINEL
                    then trim (drop (length SENTINEL) m) else c) c ms.

(** The lines of [ms] that are not Terminal. *)
Definition progressOf (ms : list (list N)) : list Node :=
  progressLine <$> filter (fun m => startsWith m SENTINEL = false) ms.

(** A string that is empty or made of white space only. *)
Definition blank (s : list N) : Prop :=
  Forall (fun c => isWhiteSpace c = true) s.

(** The step from [st] to [st'] stored [payload] as the final content,
    showed the copy button and left the log alone. *)
Definition handledAsTerminal (payload : list N) (st st' : State) : Prop :=
  currentMarkdownContent st' = payload /\
  log st' = log st /\
  displayOf "copyButton" st' = Some "block".

(** The step from [st] to [st'] appended [message] to the log and left
    the final content alone. *)
Definition handledAsProgress (message : list N) (st st' : State) : Prop :=
  currentMarkdownContent st' = currentMarkdownContent st /\
  log st' = log st ++ [progressLine message].

(** ** Concrete pages and sessions *)

Definition hidden : Element := mkElement [] "none" [].
Definition shown : Element := mkElement [] "" [].

(** A page with every element the script asks for. *)
Definition page : gmap string Element :=
  list_to_map
    [("destination", shown); ("travelDate", shown); ("progress", shown);
     ("option-selection", hidden); ("itinerary", shown); ("copyButton", hidden);
     ("cluster-input", shown); ("cluster-selection", hidden)].

(** The ids of [templates/index.html]. *)
Definition index_html : gmap string Element :=
  list_to_map
    [("destination", shown); ("travelDate", shown); ("outputFormat", shown);
     ("option-selection", hidden); ("option-input", shown); ("progress", shown)].

(** A fresh page load. *)
Definition st_idle : State := mkState page None [] [] [].

(** The form filled in. *)
Definition st_filled : State :=
  user_input "travelDate" (lit "2024-06-01")
    (user_input "destination" (lit "Paris") st_idle).

(** A renderer to run examples with: the source as it is. *)
Definition plain (source : list N) : list N := source.

(** A session in progress: the form submitted, the connection open, one
    progress line received, no prompt outstanding, and "1" typed into the
    selection input. *)
Definition st_planning : State :=
  user_input "cluster-input" (lit "1")
    (snd (deliver plain 0 (lit "Searching flights...")
            (socket_open 0 (snd (startPlanning st_filled))))).

(** The same session with a prompt received and nothing typed yet. *)
Definition st_prompted : State :=
  snd (deliver plain 0
         (lit "Please review the options and select the correct option: 1) Hotel A 2) Hotel B")
         (socket_open 0 (snd (startPlanning st_filled)))).

(** A session that received its itinerary. *)
Definition st_completed : State :=
  snd (deliver plain 0 (lit "Itinerary generated successfully! # Paris Trip")
         st_planning).

(** ** More observations, for the whole of the script *)

(** The nodes an HTML source parses to, as [set_innerHTML] stores them. *)
Definition htmlNodes (h : list N) : list Node :=
  childNodes (set_innerHTML h shown).

(** The children of the element [id]. *)
Definition childrenOf (id : string) (st : State) : option (list Node) :=
  childNodes <$> document st !! id.

(** The [value] of the input [id]. *)
Definition valueOf (id : string) (st : State) : option (list N) :=
  value <$> document st !! id.

(** The address every socket of the script connects to. *)
Definition serverUrl : string := "ws://127.0.0.1:5000/ws".

(** The socket [startPlanning] creates. *)
Definition freshSocket : WebSocket :=
  mkWebSocket serverUrl CONNECTING (Some installedHandler) [].

(** A string with no white space at either end. *)
Definition trimmed (s : list N) : Prop :=
  (forall c t, s = c :: t -> isWhiteSpace c = false) /\
  (forall c t, s = t ++ [c] -> isWhiteSpace c = false).

(** A node of the log that is a progress line for a text not beginning
    with the sentinel. *)
Definition isProgressLine (n : Node) : Prop :=
  exists message, n = progressLine message /\ startsWith message SENTINEL = false.

(** Some line of [ms] contains the prompt text. *)
Definition anyPrompt (ms : list (list N)) : bool :=
  existsb (fun m => includes m PROMPT) ms.

(** Some line of [ms] begins with the sentinel. *)
Definition anyTerminal (ms : list (list N)) : bool :=
  existsb (fun m => startsWith m SENTINEL) ms.

(** What [submitClusterSelection] does after the call of [send] returned,
    from the store [st1] it left: hide the box, clear the input. *)
Definition afterSend (e : Element) (st st1 : State) : Completion unit * State :=
  match document st !! "cluster-selection" with
  | Some b =>
      (Normal tt,
       with_document
         (<["cluster-input" := set_value [] e]>
            (<["cluster-selection" := set_display "none" b]> (document st))) st1)
  | None => (Throw TypeError, st1)
  end.

(** The itinerary element shows the rendering of the final content, and
    the copy button is shown. *)
Definition rendered (marked_parse : list N -> list N) (st : State) : Prop :=
  childrenOf "itinerary" st =
    Some (htmlNodes (marked_parse (currentMarkdownContent st))) /\
  displayOf "copyButton" st = Some "block".

(** [ws] is unset and there is no socket, or [ws] is the socket created
    last. *)
Definition wsIsLast (st : State) : Prop :=
  match ws st with
  | None => sockets st = []
  | Some i => S i = length (sockets st)
  end.

(** Every socket connects to the one address and carries the handler. *)
Definition socketsUniform (st : State) : Prop :=
  Forall (fun s => url s = serverUrl /\ onmessage s = Some installedHandler)
         (sockets st).

(** No socket was handed an empty message. *)
Definition sentNonEmpty (st : State) : Prop :=
  Forall (fun s => Forall (fun m => m <> []) (sent s)) (sockets st).

(** Once a socket exists, the log consists of progress lines. *)
Definition logClean (st : State) : Prop :=
  sockets st <> [] -> Forall isProgressLine (log st).

(** The five together. *)
Definition tidy (st : State) : Prop :=
  wsIsLast st /\ socketsUniform st /\ sentNonEmpty st /\
  trimmed (currentMarkdownContent st) /\ logClean st.

(** ** Copying the report *)

(** [copyReport] is asynchronous: it runs up to the call of
    [navigator.clipboard.writeText], is suspended until the browser settles
    that write, and then goes on. The window adds to the store what this
    needs: the text of elements (kept beside the page, by id; an element
    without an entry has no text), the clipboard, the writes not yet
    settled (each one a suspended call), the timeouts not yet run (each
    with the element and the text its callback captured; all have the same
    delay, so they run in the order they were set) and the console. *)
Inductive ConsoleEntry :=
  | FailedToCopy (err : option Error).

Record Window := mkWindow {
  store : State;
  textContent : gmap string (list N);
  clipboard : list N;
  writes : list (list N);
  timeouts : list (string * list N);
  console : list ConsoleEntry
}.

(** [e.textContent] of the element [id]. *)
Definition textOf (id : string) (w : Window) : list N :=
  default [] (textContent w !! id).

(** The rest of the session goes on in the window's store. *)
Definition withStore (st : State) (w : Window) : Window :=
  mkWindow st (textContent w) (clipboard w) (writes w) (timeouts w) (console w).

(** [copyReport()], up to the [await]: with a final content, the write of
    that content is requested; without one, nothing happens. *)
Definition copyReport (w : Window) : Window :=
  if truthy (currentMarkdownContent (store w)) then
    mkWindow (store w) (textContent w) (clipboard w)
             (writes w ++ [currentMarkdownContent (store w)])
             (timeouts w) (console w)
  else w.

(** [copyReport()], after the [await]: the button says "Copied!" and a
    timeout is set that puts back the text it had; a missing button is a
    [TypeError] that the [catch] logs. *)
Definition copyReport_resume (w : Window) : Window :=
  match document (store w) !! "copyButton" with
  | Some _ =>
      let originalText := textOf "copyButton" w in
      mkWindow (store w) (<["copyButton" := lit "Copied!"]> (textContent w))
               (clipboard w) (writes w)
               (timeouts w ++ [("copyButton", originalText)]) (console w)
  | None =>
      mkWindow (store w) (textContent w) (clipboard w) (writes w) (timeouts w)
               (console w ++ [FailedToCopy (Some TypeError)])
  end.

(** The browser settles the pending write [i]: done ([ok]), the text is on
    the clipboard and the suspended call resumes; refused, the [catch]
    logs the rejection. *)
Definition writeSettled (i : nat) (ok : bool) (w : Window) : Window :=
  match writes w !! i with
  | Some text =>
      if ok then
        copyReport_resume
          (mkWindow (store w) (textContent w) text (delete i (writes w))
                    (timeouts w) (console w))
      else
        mkWindow (store w) (textContent w) (clipboard w) (delete i (writes w))
                 (timeouts w) (console w ++ [FailedToCopy None])
  | None => w
  end.

(** The oldest timeout runs: its element gets its text back. *)
Definition timeoutFires (w : Window) : Window :=
  match timeouts w with
  | (id, text) :: rest =>
      mkWindow (store w) (<[id := text]> (textContent w)) (clipboard w)
               (writes w) rest (console w)
  | [] => w
  end.

(** The window of a session that received its itinerary, with nothing
    pending and a button that says "Copy". *)
Definition w_completed : Window :=
  mkWindow st_completed {["copyButton" := lit "Copy"]} [] [] [] [].

(** * Properties *)

(** ** Strings: the script's tests against their meaning *)

Lemma startsWith_prefix (s p : list N) :
  startsWith s p = true <-> exists rest, s = p ++ rest.
Proof.
  revert s. induction p as [|c p IH]; intros s.
  - split; [intros _; by exists s | by destruct s].
  - destruct s as [|d s]; cbn [startsWith].
    + split; [done | intros [rest Hrest]; discriminate].
    + rewrite andb_true_iff, IH, N.eqb_eq. split.
      * intros [-> [rest ->]]. by exists rest.
      * intros [rest Hrest]. injection Hrest as -> ->. eauto.
Qed.

Lemma includes_infix (s p : list N) :
  includes s p = true <-> exists pre post, s = pre ++ p ++ post.
Proof.
  induction s as [|d s IH].
  - cbn [includes]. rewrite orb_false_r, startsWith_prefix. split.
    + intros [rest Hrest]. by exists [], rest.
    + intros [pre [post Heq]]. symmetry in Heq.
      apply app_eq_nil in Heq as [-> Heq]. exists post. by rewrite Heq.
  - cbn [includes]. rewrite orb_true_iff, IH, startsWith_prefix. split.
    + intros [[rest Hrest] | [pre [post Heq]]].
      * by exists [], rest.
      * exists (d :: pre), post. by rewrite Heq.
    + intros [[|d' pre] [post Heq]].
      * left. by exists post.
      * right. injection Heq as -> ->. eauto.
Qed.

Lemma replace_at_start (s p r : list N) :
  startsWith s p = true -> replace s p r = r ++ drop (length p) s.
Proof. intros H. destruct s; cbn [replace]; by rewrite H. Qed.

Lemma replace_sentinel (rest : list N) :
  replace (SENTINEL ++ rest) SENTINEL [] = rest.
Proof.
  rewrite replace_at_start by (apply startsWith_prefix; eauto).
  by rewrite drop_app_length.
Qed.

Lemma payload_remainder (message : list N) :
  startsWith message SENTINEL = true ->
  trim (replace message SENTINEL []) = trim (drop (length SENTINEL) message).
Proof. intros H. by rewrite replace_at_start. Qed.

(** [trim] removes a blank prefix and a blank suffix, and what is left
    neither begins nor ends with white space. *)
Lemma trimStart_split (s : list N) :
  exists l, blank l /\ s = l ++ trimStart s /\
            forall c t, trimStart s = c :: t -> isWhiteSpace c = false.
Proof.
  induction s as [|d s (l & Hl & Hs & Hhead)]; cbn [trimStart].
  - exists []. split; [constructor|]. by split.
  - destruct (isWhiteSpace d) eqn:E.
    + exists (d :: l). split; [by constructor|]. split; [|exact Hhead].
      cbn. by rewrite <- Hs.
    + exists []. split; [constructor|]. split; [done|].
      intros c t Hc. injection Hc as <- _. exact E.
Qed.

Lemma trim_split (s : list N) :
  exists l r, blank l /\ blank r /\ s = l ++ trim s ++ r /\
              (forall c t, trim s = c :: t -> isWhiteSpace c = false) /\
              (forall c t, trim s = t ++ [c] -> isWhiteSpace c = false).
Proof.
  destruct (trimStart_split s) as (l & Hl & Hs & Hhead).
  destruct (trimStart_split (reverse (trimStart s))) as (r & Hr & Hrev & Hlast).
  assert (Hmid : trimStart s = trim s ++ reverse r).
  { unfold trim, trimEnd. rewrite <- reverse_app, <- Hrev. by rewrite reverse_involutive. }
  exists l, (reverse r). split; [exact Hl|]. split.
  { unfold blank. by apply Forall_reverse. }
  split; [by rewrite <- Hmid|]. split.
  - intros c t Hc. apply (Hhead c (t ++ reverse r)). by rewrite Hmid, Hc.
  - intros c t Hc. apply (Hlast c (reverse t)).
    unfold trim, trimEnd in Hc. apply (f_equal reverse) in Hc.
    by rewrite reverse_involutive, reverse_app in Hc.
Qed.

(** ** Stepping through the store *)

Lemma getProp_present {A} (id : string) (prop : Element -> A) (e : Element) (st : State) :
  document st !! id = Some e ->
  getProp (Some id) prop st = (Normal (prop e), st).
Proof. intros H. unfold getProp. by rewrite H. Qed.

Lemma getElementById_present (id : string) (e : Element) (st : State) :
  document st !! id = Some e ->
  getElementById id st = (Normal (Some id), st).
Proof. intros H. unfold getElementById. by rewrite H. Qed.

Lemma bind_normal {A B} (m : M A) (k : A -> M B) (a : A) (st st' : State) :
  m st = (Normal a, st') -> bind m k st = k a st'.
Proof. intros H. unfold bind. by rewrite H. Qed.

Section Handler.

Variable marked_parse : list N -> list N.

Local Abbreviation handle := (ws_onmessage marked_parse installedHandler).

(** What the handler does to a page that has its elements: the complete
    account of one inbound message. *)
Lemma onmessage_effect (message : list N) (st : State) :
  ready st ->
  exists st',
    handle message st = (Normal tt, st') /\
    ready st' /\
    ws st' = ws st /\
    sockets st' = sockets st /\
    effects st' = effects st ++ [AnimationFrame (Some "progress")] /\
    displayOf "option-selection" st' =
      (if includes message PROMPT then Some "block"
       else displayOf "option-selection" st) /\
    (if startsWith message SENTINEL then
       currentMarkdownContent st' = trim (replace message SENTINEL []) /\
       log st' = log st /\
       displayOf "copyButton" st' = Some "block"
     else
       currentMarkdownContent st' = currentMarkdownContent st /\
       log st' = log st ++ [progressLine message]).
Proof.
  intros (Hp & Ho & Hi & Hc).
  destruct Hp as [ep Hp], Ho as [eo Ho], Hi as [ei Hi], Hc as [ec Hc].
  unfold ws_onmessage, installedHandler, bind, setProp, requestAnimationFrame, ret,
  put_currentMarkdownContent, get_currentMarkdownContent.
  cbn [progressDiv optionSelectionDiv itineraryDiv copyButton].
  destruct (includes message PROMPT), (startsWith message SENTINEL).
  all: repeat (cbn [document with_document with_currentMarkdownContent with_effects
                    ws sockets effects currentMarkdownContent];
               rewrite ?Ho, ?Hp, ?Hi, ?Hc, ?lookup_insert_ne by done).
  all: eexists; split; [reflexivity|].
  all: unfold ready, displayOf, log;
       cbn [document with_document with_currentMarkdownContent with_effects
            ws sockets effects currentMarkdownContent].
  all: repeat (rewrite ?lookup_insert_eq; rewrite ?lookup_insert_ne by done).
  all: rewrite ?Ho, ?Hp, ?Hi, ?Hc; cbn.
  all: repeat split; eauto.
Qed.

Lemma not_prefix_false (s p : list N) :
  (forall rest, s <> p ++ rest) -> startsWith s p = false.
Proof.
  intros H. destruct (startsWith s p) eqn:E; [|done].
  apply startsWith_prefix in E as [rest ->]. by destruct (H rest).
Qed.

Lemma not_infix_false (s p : list N) :
  (forall pre post, s <> pre ++ p ++ post) -> includes s p = false.
Proof.
  intros H. destruct (includes s p) eqn:E; [|done].
  apply includes_infix in E as (pre & post & ->). by destruct (H pre post).
Qed.

Lemma awaiting_block (st : State) :
  displayOf "option-selection" st = Some "block" -> isAwaitingSelection st = true.
Proof. intros H. unfold isAwaitingSelection. by rewrite bool_decide_eq_true. Qed.

Lemma awaiting_same (st st' : State) :
  displayOf "option-selection" st' = displayOf "option-selection" st ->
  isAwaitingSelection st' = isAwaitingSelection st.
Proof. intros H. unfold isAwaitingSelection. by rewrite H. Qed.


(** C2, as the script has it. A line that begins with the sentinel and
    also contains the prompt text gets the Terminal treatment (final
    content stored, line not logged) and raises the pending-selection
    flag as well: the two tests are independent. *)
Theorem terminal_with_prompt_raises_flag (rest : list N) (st : State) :
  ready st ->
  includes (SENTINEL ++ rest) PROMPT = true ->
  exists st',
    handle (SENTINEL ++ rest) st = (Normal tt, st') /\
    handledAsTerminal (trim rest) st st' /\
    isAwaitingSelection st' = true.
Proof.
  intros Hready Hprompt.
  destruct (onmessage_effect (SENTINEL ++ rest) st Hready)
    as (st' & Hrun & _ & _ & _ & _ & Hflag & Hbranch).
  exists st'. split; [exact Hrun|].
  rewrite Hprompt in Hflag.
  rewrite (proj2 (startsWith_prefix _ _)), replace_sentinel in Hbranch by eauto.
  split; [exact Hbranch | by apply awaiting_block].
Qed.

(** C7. A line that contains the prompt text anywhere and does not begin
    with the sentinel raises the pending-selection flag and is appended
    to the log like any progress line. *)
Theorem prompt_line_flagged_and_logged (pre post : list N) (st : State) :
  ready st ->
  (forall rest, pre ++ PROMPT ++ post <> SENTINEL ++ rest) ->
  exists st',
    handle (pre ++ PROMPT ++ post) st = (Normal tt, st') /\
    isAwaitingSelection st' = true /\
    log st' = log st ++ [progressLine (pre ++ PROMPT ++ post)].
Proof.
  intros Hready Hnot.
  destruct (onmessage_effect (pre ++ PROMPT ++ post) st Hready)
    as (st' & Hrun & _ & _ & _ & _ & Hflag & Hbranch).
  exists st'. split; [exact Hrun|].
  rewrite (proj2 (includes_infix _ _)) in Hflag by eauto.
  rewrite (not_prefix_false _ _ Hnot) in Hbranch.
  split; [by apply awaiting_block | apply Hbranch].
Qed.

(** C8. The handler accepts every line: it returns normally and leaves
    the connection as it was; a line that neither begins with the
    sentinel nor contains the prompt text is appended to the log as it
    is, with the flag and the final content untouched. *)
Theorem any_line_accepted (message : list N) (st : State) :
  ready st ->
  exists st',
    handle message st = (Normal tt, st') /\
    ready st' /\ ws st' = ws st /\ sockets st' = sockets st /\
    ((forall rest, message <> SENTINEL ++ rest) ->
     (forall pre post, message <> pre ++ PROMPT ++ post) ->
     handledAsProgress message st st' /\
     isAwaitingSelection st' = isAwaitingSelection st).
Proof.
  intros Hready.
  destruct (onmessage_effect message st Hready)
    as (st' & Hrun & Hready' & Hws & Hsock & _ & Hflag & Hbranch).
  exists st'. repeat (split; [done|]).
  intros Hnt Hnp.
  rewrite (not_infix_false _ _ Hnp) in Hflag.
  rewrite (not_prefix_false _ _ Hnt) in Hbranch.
  split; [exact Hbranch | by apply awaiting_same].
Qed.

(** C9. How a line is handled depends on its text only: from any two
    states, the same line is Terminal in both with the same payload, or
    logged in both with the same text; and it raises the flag in both or
    in neither. *)
Theorem handling_depends_on_text_only (message : list N) (st1 st2 : State) :
  ready st1 -> ready st2 ->
  exists st1' st2',
    handle message st1 = (Normal tt, st1') /\
    handle message st2 = (Normal tt, st2') /\
    ((exists payload, handledAsTerminal payload st1 st1' /\
                      handledAsTerminal payload st2 st2') \/
     (handledAsProgress message st1 st1' /\
      handledAsProgress message st2 st2')) /\
    ((isAwaitingSelection st1' = true /\ isAwaitingSelection st2' = true) \/
     (isAwaitingSelection st1' = isAwaitingSelection st1 /\
      isAwaitingSelection st2' = isAwaitingSelection st2)).
Proof.
  intros H1 H2.
  destruct (onmessage_effect message st1 H1)
    as (st1' & Hrun1 & _ & _ & _ & _ & Hflag1 & Hbranch1).
  destruct (onmessage_effect message st2 H2)
    as (st2' & Hrun2 & _ & _ & _ & _ & Hflag2 & Hbranch2).
  exists st1', st2'. repeat (split; [done|]). split.
  - destruct (startsWith message SENTINEL).
    + left. by exists (trim (replace message SENTINEL [])).
    + by right.
  - destruct (includes message PROMPT).
    + left. split; by apply awaiting_block.
    + right. split; by apply awaiting_same.
Qed.

(** The same account for a sequence of inbound messages. *)
Lemma onmessages_effect (ms : list (list N)) (st : State) :
  ready st ->
  exists st',
    onmessages marked_parse installedHandler ms st = (Normal tt, st') /\
    ready st' /\
    ws st' = ws st /\
    sockets st' = sockets st /\
    currentMarkdownContent st' = contentAfter (currentMarkdownContent st) ms /\
    log st' = log st ++ progressOf ms.
Proof.
  revert st. induction ms as [|m ms IH]; intros st Hready.
  - exists st. unfold progressOf. cbn. by rewrite app_nil_r.
  - destruct (onmessage_effect m st Hready)
      as (st1 & Hrun & Hready1 & Hws & Hsock & _ & _ & Hbranch).
    destruct (IH st1 Hready1) as (st2 & Hrun2 & Hready2 & Hws2 & Hsock2 & Hc & Hl).
    exists st2. cbn [onmessages]. rewrite (bind_normal _ _ _ _ _ Hrun).
    split; [exact Hrun2|]. split; [exact Hready2|].
    split; [congruence|]. split; [congruence|].
    rewrite Hc, Hl. unfold progressOf, contentAfter. cbn [foldl].
    rewrite filter_cons.
    destruct (startsWith m SENTINEL) eqn:E.
    + destruct Hbranch as (-> & -> & _). rewrite payload_remainder by done.
      by rewrite decide_False.
    + destruct Hbranch as (-> & ->). rewrite decide_True by done.
      by rewrite fmap_cons, <- app_assoc.
Qed.

Lemma contentAfter_progress (c : list N) (ms : list (list N)) :
  Forall (fun m => startsWith m SENTINEL = false) ms -> contentAfter c ms = c.
Proof.
  unfold contentAfter. induction 1 as [|m ms Hm _ IH]; cbn [foldl]; [done|].
  by rewrite Hm.
Qed.

Lemma progressOf_terminal (ms : list (list N)) :
  Forall (fun m => startsWith m SENTINEL = true) ms -> progressOf ms = [].
Proof.
  unfold progressOf. induction 1 as [|m ms Hm _ IH]; [done|].
  rewrite filter_cons, decide_False by (by rewrite Hm). exact IH.
Qed.

(** C4, as the script has it. After a Terminal line the final content is
    its trimmed payload and the line is not logged; the handler stays
    installed and treats every later line like any other. Over the later
    lines [ms] the final content becomes the payload of the last Terminal
    line and the log gains the others: later lines that are not Terminal
    leave the final content alone, later Terminal lines leave the log
    alone. *)
Theorem terminal_then_later_lines (rest : list N) (ms : list (list N)) (st : State) :
  ready st ->
  exists st1 st2,
    handle (SENTINEL ++ rest) st = (Normal tt, st1) /\
    handledAsTerminal (trim rest) st st1 /\
    onmessages marked_parse installedHandler ms st1 = (Normal tt, st2) /\
    currentMarkdownContent st2 = contentAfter (trim rest) ms /\
    log st2 = log st1 ++ progressOf ms /\
    (Forall (fun m => startsWith m SENTINEL = false) ms ->
     currentMarkdownContent st2 = trim rest) /\
    (Forall (fun m => startsWith m SENTINEL = true) ms ->
     log st2 = log st1).
Proof.
  intros Hready.
  destruct (onmessage_effect (SENTINEL ++ rest) st Hready)
    as (st1 & Hrun & Hready1 & _ & _ & _ & _ & Hbranch).
  rewrite (proj2 (startsWith_prefix _ _)), replace_sentinel in Hbranch by eauto.
  destruct (onmessages_effect ms st1 Hready1)
    as (st2 & Hrun2 & _ & _ & _ & Hc & Hl).
  destruct Hbranch as (Hcontent & Hbranch).
  exists st1, st2. rewrite Hcontent in Hc.
  split; [exact Hrun|]. split; [by split|]. split; [exact Hrun2|].
  split; [exact Hc|]. split; [exact Hl|]. split.
  - intros Hall. by rewrite Hc, contentAfter_progress.
  - intros Hall. by rewrite Hl, progressOf_terminal, app_nil_r.
Qed.

End Handler.

(** ** Validation and start *)

Lemma trimStart_blank (s : list N) : blank s -> trimStart s = [].
Proof. induction 1 as [|c s Hc _ IH]; cbn [trimStart]; [done | by rewrite Hc]. Qed.

Lemma trim_blank (s : list N) : blank s -> trim s = [].
Proof. intros H. unfold trim, trimEnd. by rewrite (trimStart_blank s H). Qed.

(** [validateInputs] on a page that has the two inputs. *)
Lemma validateInputs_effect (e1 e2 : Element) (st : State) :
  document st !! "destination" = Some e1 ->
  document st !! "travelDate" = Some e2 ->
  validateInputs st =
    if negb (truthy (trim (value e1))) then
      (Normal false, with_effects (effects st ++ [Alert "Please enter a destination"]) st)
    else if negb (truthy (trim (value e2))) then
      (Normal false, with_effects (effects st ++ [Alert "Please enter a travel date"]) st)
    else (Normal true, st).
Proof.
  intros H1 H2. unfold validateInputs.
  rewrite (bind_normal _ _ _ _ _ (getElementById_present _ _ _ H1)).
  rewrite (bind_normal _ _ _ _ _ (getProp_present _ value _ _ H1)).
  rewrite (bind_normal _ _ _ _ _ (getElementById_present _ _ _ H2)).
  rewrite (bind_normal _ _ _ _ _ (getProp_present _ value _ _ H2)).
  by destruct (truthy (trim (value e1))), (truthy (trim (value e2))).
Qed.


(** [startPlanning] past validation, on a page that has the elements. *)
Lemma startPlanning_effect (e1 e2 : Element) (st : State) :
  document st !! "destination" = Some e1 ->
  document st !! "travelDate" = Some e2 ->
  truthy (trim (value e1)) = true ->
  truthy (trim (value e2)) = true ->
  ready st ->
  exists st',
    startPlanning st = (Normal tt, st') /\
    ready st' /\
    log st' = [] /\
    currentMarkdownContent st' = [] /\
    displayOf "option-selection" st' = Some "none" /\
    displayOf "copyButton" st' = Some "none" /\
    childNodes <$> document st' !! "itinerary" = Some [] /\
    ws st' = Some (length (sockets st)) /\
    sockets st' =
      sockets st ++
      [mkWebSocket "ws://127.0.0.1:5000/ws" CONNECTING (Some installedHandler) []] /\
    effects st' = effects st.
Proof.
  intros H1 H2 T1 T2 (Hp & Ho & Hi & Hc).
  destruct Hp as [ep Hp], Ho as [eo Ho], Hi as [ei Hi], Hc as [ec Hc].
  unfold startPlanning.
  rewrite (bind_normal _ _ true _ st) by (by rewrite (validateInputs_effect _ _ _ H1 H2), T1, T2).
  cbn [negb].
  unfold bind, getElementById, setProp, new_WebSocket, set_onmessage,
    put_currentMarkdownContent, put_ws.
  repeat (cbn [document with_document with_currentMarkdownContent with_effects
               with_sockets with_ws ws sockets effects currentMarkdownContent];
          rewrite ?Ho, ?Hp, ?Hi, ?Hc, ?lookup_insert_ne by done).
  rewrite list_lookup_middle by done.
  eexists; split; [reflexivity|].
  unfold ready, displayOf, log;
    cbn [document with_document with_currentMarkdownContent with_effects
         with_sockets with_ws ws sockets effects currentMarkdownContent
         url readyState sent].
  repeat (rewrite ?lookup_insert_eq; rewrite ?lookup_insert_ne by done).
  rewrite ?Ho, ?Hp, ?Hi, ?Hc; cbn.
  repeat split; eauto.
  rewrite insert_app_r_alt, Nat.sub_diag by done. done.
Qed.

Lemma truthy_nonempty (s : list N) : s <> [] -> truthy s = true.
Proof. by destruct s. Qed.

(** C6. Whatever the session before it (its log, final content, flag and
    sockets), a call of [startPlanning] that passes validation leaves an
    empty log, the final content unset (the empty string the script starts
    with) and no pending selection, and [ws] is a fresh socket that is
    still connecting and has sent nothing. *)
Theorem start_resets_session (e1 e2 : Element) (st : State) :
  ready st ->
  document st !! "destination" = Some e1 ->
  document st !! "travelDate" = Some e2 ->
  trim (value e1) <> [] ->
  trim (value e2) <> [] ->
  exists st',
    startPlanning st = (Normal tt, st') /\
    log st' = [] /\
    currentMarkdownContent st' = [] /\
    isAwaitingSelection st' = false /\
    ws st' = Some (length (sockets st)) /\
    sockets st' !! length (sockets st) =
      Some (mkWebSocket "ws://127.0.0.1:5000/ws" CONNECTING (Some installedHandler) []).
Proof.
  intros Hready H1 H2 T1 T2.
  destruct (startPlanning_effect e1 e2 st H1 H2
              (truthy_nonempty _ T1) (truthy_nonempty _ T2) Hready)
    as (st' & Hrun & _ & Hlog & Hcontent & Hflag & _ & _ & Hws & Hsock & _).
  exists st'. repeat (split; [done|]). split.
  - unfold isAwaitingSelection. by rewrite Hflag.
  - split; [done|]. rewrite Hsock. by apply list_lookup_middle.
Qed.

(** ** Selection *)

(** The gate of [submitClusterSelection]: without a socket in [ws], or with
    nothing typed, the call changes nothing. *)
Lemma submit_gate (e : Element) (st : State) :
  document st !! "cluster-input" = Some e ->
  ws st = None \/ value e = [] ->
  submitClusterSelection st = (Normal tt, st).
Proof.
  intros H Hgate. unfold submitClusterSelection.
  rewrite (bind_normal _ _ _ _ _ (getElementById_present _ _ _ H)).
  rewrite (bind_normal _ _ _ _ _ (getProp_present _ value _ _ H)).
  unfold bind, get_ws. destruct (ws st) as [sock|]; [|done].
  destruct Hgate as [?| ->]; done.
Qed.

(** C3, as the script has it. [submitClusterSelection] does not look at the
    pending-selection flag. Its gate is the socket and the text: in every
    state where [ws] holds no socket, or the text is empty, the call sends
    nothing and leaves the whole store, the log included, as it was. *)
Theorem submit_without_socket_or_text_is_noop (e : Element) (st : State) :
  document st !! "cluster-input" = Some e ->
  ws st = None \/ value e = [] ->
  exists st',
    submitClusterSelection st = (Normal tt, st') /\
    st' = st /\ outbound st' = outbound st /\ log st' = log st /\
    isAwaitingSelection st' = isAwaitingSelection st.
Proof.
  intros H Hgate. exists st. by rewrite (submit_gate e st H Hgate).
Qed.

(** C10. With the empty string in the selection input, also while a prompt
    is outstanding, [submitClusterSelection] sends nothing and leaves the
    selection box and everything else as it was. *)
Theorem empty_selection_dropped (e : Element) (st : State) :
  document st !! "cluster-input" = Some e ->
  value e = [] ->
  submitClusterSelection st = (Normal tt, st).
Proof. intros H Hempty. apply (submit_gate e st H). by right. Qed.

(** ** The handler always finds its elements *)

Ltac step_store :=
  repeat (cbn [document with_document with_currentMarkdownContent with_effects
               with_sockets with_ws ws sockets effects currentMarkdownContent
               fst snd negb];
          match goal with
          | H : document _ !! _ = _ |- _ => rewrite H
          | |- _ => rewrite lookup_insert_ne by done
          | |- _ => rewrite lookup_insert_eq
          end).

Ltac solve_framed :=
  split;
  [ cbn [document with_document with_currentMarkdownContent with_effects
         with_sockets with_ws fst snd];
    repeat (rewrite dom_insert_lookup_L by (rewrite ?lookup_insert_ne by done; eauto));
    reflexivity
  | reflexivity ].

Lemma same_handlers (sock : nat) (s s' : WebSocket) (l : list WebSocket) :
  l !! sock = Some s -> onmessage s' = onmessage s ->
  onmessage <$> <[sock := s']> l = onmessage <$> l.
Proof.
  intros H Hh. rewrite list_fmap_insert, Hh. apply list_insert_id.
  by rewrite list_lookup_fmap, H.
Qed.

(** [startPlanning] stops early with page and handlers kept, or runs to
    its end and adds one socket carrying [installedHandler]. *)
Lemma startPlanning_cases (st : State) :
  framed st (snd (startPlanning st)) \/
  (exists st', startPlanning st = (Normal tt, st') /\ ready st' /\
     sockets st' = sockets st ++
       [mkWebSocket "ws://127.0.0.1:5000/ws" CONNECTING (Some installedHandler) []]).
Proof.
  unfold startPlanning, validateInputs, bind, getElementById, getProp, setProp, alert, ret,
    new_WebSocket, set_onmessage, put_currentMarkdownContent, put_ws.
  destruct (document st !! "destination") as [e1|] eqn:H1; step_store; [|left; solve_framed].
  destruct (document st !! "travelDate") as [e2|] eqn:H2; step_store; [|left; solve_framed].
  destruct (truthy (trim (value e1))); step_store; [|left; solve_framed].
  destruct (truthy (trim (value e2))); step_store; [|left; solve_framed].
  destruct (document st !! "progress") as [ep|] eqn:Hp;
    destruct (document st !! "option-selection") as [eo|] eqn:Ho;
    destruct (document st !! "itinerary") as [ei|] eqn:Hi;
    destruct (document st !! "copyButton") as [ec|] eqn:Hc;
    step_store.
  2-16: left; solve_framed.
  right. rewrite list_lookup_middle by done. eexists. split; [reflexivity|].
  split.
  - unfold ready. step_store. repeat split; eauto.
  - cbn. by rewrite insert_app_r_alt, Nat.sub_diag by done.
Qed.

Lemma submit_framed (st : State) : framed st (snd (submitClusterSelection st)).
Proof.
  unfold submitClusterSelection, bind, getElementById, getProp, setProp, ret, ws_send,
    get_ws.
  destruct (document st !! "cluster-input") as [e|] eqn:H; step_store; [|solve_framed].
  destruct (ws st) as [sock|]; [|solve_framed].
  destruct (truthy (value e)); [|solve_framed].
  destruct (sockets st !! sock) as [s|] eqn:Hs; [|solve_framed].
  destruct (readyState s); step_store; try solve_framed.
  - destruct (document st !! "cluster-selection") as [b|] eqn:Hb; step_store.
    all: split;
      [ cbn [document with_document with_sockets fst snd];
        repeat (rewrite dom_insert_lookup_L by (rewrite ?lookup_insert_ne by done; eauto));
        reflexivity
      | by apply (same_handlers _ s) ].
  - destruct (document st !! "cluster-selection") as [b|] eqn:Hb; step_store; solve_framed.
  - destruct (document st !! "cluster-selection") as [b|] eqn:Hb; step_store; solve_framed.
Qed.

Lemma framed_ready (st st' : State) : framed st st' -> ready st -> ready st'.
Proof.
  intros [Hdom _]. unfold ready. by rewrite <- !elem_of_dom, Hdom.
Qed.

Lemma framed_sound (st st' : State) : framed st st' -> sound st -> sound st'.
Proof.
  intros Hframed Hsound i s' h Hs' Hh.
  assert ((onmessage <$> sockets st) !! i = Some (Some h)) as Hold.
  { destruct Hframed as [_ <-]. by rewrite list_lookup_fmap, Hs', <- Hh. }
  rewrite list_lookup_fmap in Hold.
  destruct (sockets st !! i) as [s|] eqn:Hs; [|done].
  injection Hold as Hold.
  destruct (Hsound i s h Hs Hold) as [-> Hready].
  split; [done | by apply (framed_ready st)].
Qed.

Section Sessions.

Variable marked_parse : list N -> list N.

Lemma deliver_sound (sock : nat) (message : list N) (st : State) :
  sound st ->
  exists st', deliver marked_parse sock message st = (Normal tt, st') /\ sound st'.
Proof.
  intros Hsound. unfold deliver.
  destruct (sockets st !! sock) as [[u [] [h|] out]|] eqn:Hs; try by exists st.
  destruct (Hsound sock _ h Hs eq_refl) as [-> Hready].
  destruct (onmessage_effect marked_parse message st Hready)
    as (st' & Hrun & Hready' & _ & Hsock & _).
  exists st'. split; [exact Hrun|].
  intros i s h' Hi Hh. rewrite Hsock in Hi.
  by destruct (Hsound i s h' Hi Hh) as [-> _].
Qed.

Lemma step_sound (st st' : State) : step marked_parse st st' -> sound st -> sound st'.
Proof.
  intros Hstep Hsound. destruct Hstep.
  - destruct (startPlanning_cases st) as [Hframed | (st' & Hrun & Hready & Hsock)].
    + by apply (framed_sound st).
    + rewrite Hrun. cbn [snd]. intros i s h Hi Hh. split; [|done].
      rewrite Hsock in Hi. apply lookup_app_Some in Hi as [Hi | [_ Hi]].
      * by destruct (Hsound i s h Hi Hh).
      * apply list_lookup_singleton_Some in Hi as [_ <-]. cbn in Hh. congruence.
  - apply (framed_sound st); [apply submit_framed | done].
  - destruct (deliver_sound sock message st Hsound) as (st' & -> & Hsound'). done.
  - apply (framed_sound st); [|done]. unfold socket_open.
    destruct (sockets st !! sock) as [s|] eqn:Hs; [|by split].
    split; [done | by apply (same_handlers _ s)].
  - apply (framed_sound st); [|done]. unfold socket_close.
    destruct (sockets st !! sock) as [s|] eqn:Hs; [|by split].
    split; [done | by apply (same_handlers _ s)].
  - apply (framed_sound st); [|done]. split; [apply dom_alter_L | done].
Qed.

Lemma reachable_sound (st : State) : reachable marked_parse st -> sound st.
Proof.
  induction 1 as [d | st st' _ IH Hstep].
  - intros i s h Hi. done.
  - by apply (step_sound st).
Qed.

(** X17. In every state a page can reach, a message event on any socket
    runs to its end without an exception: a socket only has the handler
    once the handler's four elements were found on the page, and no step
    removes an element. *)
Lemma handler_never_throws (sock : nat) (message : list N) (st : State) :
  reachable marked_parse st ->
  exists st', deliver marked_parse sock message st = (Normal tt, st').
Proof.
  intros Hreach.
  destruct (deliver_sound sock message st (reachable_sound st Hreach)) as (st' & Hrun & _).
  by exists st'.
Qed.

End Sessions.

(** ** The theorems at concrete sessions *)

Lemma not_prefix_by_test (s p : list N) :
  startsWith s p = false -> forall rest, s <> p ++ rest.
Proof.
  intros H rest ->. by rewrite (proj2 (startsWith_prefix _ _)) in H by eauto.
Qed.

Ltac ready_by_computation :=
  repeat split; vm_compute; eexists; reflexivity.


Lemma terminal_with_prompt_raises_flag_witness :
  exists st',
    ws_onmessage plain installedHandler (SENTINEL ++ lit " " ++ PROMPT) st_planning
      = (Normal tt, st') /\
    handledAsTerminal (trim (lit " " ++ PROMPT)) st_planning st' /\
    isAwaitingSelection st' = true.
Proof.
  apply (terminal_with_prompt_raises_flag plain (lit " " ++ PROMPT) st_planning).
  - ready_by_computation.
  - vm_compute. reflexivity.
Defined.

Lemma prompt_line_flagged_and_logged_witness :
  exists st',
    ws_onmessage plain installedHandler
      (lit "note: " ++ PROMPT ++ lit " now") st_planning = (Normal tt, st') /\
    isAwaitingSelection st' = true /\
    log st' = log st_planning ++ [progressLine (lit "note: " ++ PROMPT ++ lit " now")].
Proof.
  apply (prompt_line_flagged_and_logged plain (lit "note: ") (lit " now") st_planning).
  - ready_by_computation.
  - apply not_prefix_by_test. vm_compute. reflexivity.
Defined.

Lemma any_line_accepted_witness :
  exists st',
    ws_onmessage plain installedHandler (lit "Searching flights...") st_prompted
      = (Normal tt, st') /\
    ready st' /\ ws st' = ws st_prompted /\ sockets st' = sockets st_prompted /\
    ((forall rest, lit "Searching flights..." <> SENTINEL ++ rest) ->
     (forall pre post, lit "Searching flights..." <> pre ++ PROMPT ++ post) ->
     handledAsProgress (lit "Searching flights...") st_prompted st' /\
     isAwaitingSelection st' = isAwaitingSelection st_prompted).
Proof.
  apply (any_line_accepted plain (lit "Searching flights...") st_prompted).
  ready_by_computation.
Defined.

Lemma handling_depends_on_text_only_witness :
  exists st1' st2',
    ws_onmessage plain installedHandler (SENTINEL ++ lit "ABC") st_planning
      = (Normal tt, st1') /\
    ws_onmessage plain installedHandler (SENTINEL ++ lit "ABC") st_prompted
      = (Normal tt, st2') /\
    ((exists payload, handledAsTerminal payload st_planning st1' /\
                      handledAsTerminal payload st_prompted st2') \/
     (handledAsProgress (SENTINEL ++ lit "ABC") st_planning st1' /\
      handledAsProgress (SENTINEL ++ lit "ABC") st_prompted st2')) /\
    ((isAwaitingSelection st1' = true /\ isAwaitingSelection st2' = true) \/
     (isAwaitingSelection st1' = isAwaitingSelection st_planning /\
      isAwaitingSelection st2' = isAwaitingSelection st_prompted)).
Proof.
  apply (handling_depends_on_text_only plain (SENTINEL ++ lit "ABC")
           st_planning st_prompted); ready_by_computation.
Defined.

Lemma terminal_then_later_lines_witness :
  exists st1 st2,
    ws_onmessage plain installedHandler (SENTINEL ++ lit " # Paris Trip") st_planning
      = (Normal tt, st1) /\
    handledAsTerminal (trim (lit " # Paris Trip")) st_planning st1 /\
    onmessages plain installedHandler [lit "late"; SENTINEL ++ lit "v2"] st1
      = (Normal tt, st2) /\
    currentMarkdownContent st2 =
      contentAfter (trim (lit " # Paris Trip")) [lit "late"; SENTINEL ++ lit "v2"] /\
    log st2 = log st1 ++ progressOf [lit "late"; SENTINEL ++ lit "v2"] /\
    (Forall (fun m => startsWith m SENTINEL = false) [lit "late"; SENTINEL ++ lit "v2"] ->
     currentMarkdownContent st2 = trim (lit " # Paris Trip")) /\
    (Forall (fun m => startsWith m SENTINEL = true) [lit "late"; SENTINEL ++ lit "v2"] ->
     log st2 = log st1).
Proof.
  apply (terminal_then_later_lines plain (lit " # Paris Trip")
           [lit "late"; SENTINEL ++ lit "v2"] st_planning).
  ready_by_computation.
Defined.


Lemma start_resets_session_witness :
  exists st',
    startPlanning st_completed = (Normal tt, st') /\
    log st' = [] /\
    currentMarkdownContent st' = [] /\
    isAwaitingSelection st' = false /\
    ws st' = Some (length (sockets st_completed)) /\
    sockets st' !! length (sockets st_completed) =
      Some (mkWebSocket "ws://127.0.0.1:5000/ws" CONNECTING (Some installedHandler) []).
Proof.
  apply (start_resets_session
           (mkElement (lit "Paris") "" []) (mkElement (lit "2024-06-01") "" [])
           st_completed).
  - ready_by_computation.
  - vm_compute. reflexivity.
  - vm_compute. reflexivity.
  - vm_compute. discriminate.
  - vm_compute. discriminate.
Defined.

Lemma submit_without_socket_or_text_is_noop_witness :
  exists st',
    submitClusterSelection (user_input "cluster-input" (lit "1") st_filled)
      = (Normal tt, st') /\
    st' = user_input "cluster-input" (lit "1") st_filled /\
    outbound st' = outbound (user_input "cluster-input" (lit "1") st_filled) /\
    log st' = log (user_input "cluster-input" (lit "1") st_filled) /\
    isAwaitingSelection st' =
      isAwaitingSelection (user_input "cluster-input" (lit "1") st_filled).
Proof.
  apply (submit_without_socket_or_text_is_noop
           (mkElement (lit "1") "" [])
           (user_input "cluster-input" (lit "1") st_filled)).
  - vm_compute. reflexivity.
  - left. reflexivity.
Defined.

Lemma empty_selection_dropped_witness :
  submitClusterSelection st_prompted = (Normal tt, st_prompted).
Proof.
  apply (empty_selection_dropped shown st_prompted).
  - vm_compute. reflexivity.
  - reflexivity.
Defined.

(** ** Where the script departs from a stricter protocol *)

(** C2, counterexample. The line made of the sentinel, a space and the
    prompt text begins with the sentinel and contains the prompt text;
    delivered to a session with no prompt outstanding, it raises the
    pending-selection flag. *)
Lemma terminal_with_prompt_counterexample :
  startsWith (SENTINEL ++ lit " " ++ PROMPT) SENTINEL = true /\
  includes (SENTINEL ++ lit " " ++ PROMPT) PROMPT = true /\
  isAwaitingSelection st_planning = false /\
  fst (ws_onmessage plain installedHandler (SENTINEL ++ lit " " ++ PROMPT) st_planning)
    = Normal tt /\
  isAwaitingSelection
    (snd (ws_onmessage plain installedHandler (SENTINEL ++ lit " " ++ PROMPT) st_planning))
    = true.
Proof. vm_compute. by repeat split. Qed.

(** C3, counterexample. In a session with an open connection and no prompt
    outstanding, with "1" in the selection input, [submitClusterSelection]
    sends "1" to the server. *)
Lemma submit_while_not_awaiting_counterexample :
  isAwaitingSelection st_planning = false /\
  outbound st_planning = [[]] /\
  fst (submitClusterSelection st_planning) = Normal tt /\
  outbound (snd (submitClusterSelection st_planning)) = [[lit "1"]] /\
  snd (submitClusterSelection st_planning) <> st_planning.
Proof.
  vm_compute. repeat (split; [reflexivity|]).
  intros H. discriminate H.
Qed.

(** C4, counterexample. After the Terminal line of [st_completed], a later
    progress line is still appended to the log and a later Terminal line
    still replaces the final content. *)
Lemma inbound_after_terminal_counterexample :
  currentMarkdownContent st_completed = lit "# Paris Trip" /\
  fst (deliver plain 0 (lit "late") st_completed) = Normal tt /\
  log (snd (deliver plain 0 (lit "late") st_completed)) <> log st_completed /\
  fst (deliver plain 0 (SENTINEL ++ lit "v2") st_completed) = Normal tt /\
  currentMarkdownContent (snd (deliver plain 0 (SENTINEL ++ lit "v2") st_completed))
    <> currentMarkdownContent st_completed.
Proof.
  vm_compute. split; [reflexivity|]. split; [reflexivity|].
  split; [intros H; discriminate H|]. split; [reflexivity|].
  intros H. discriminate H.
Qed.

(** ** Examples *)

Example terminal_ABC :
  startsWith (lit "Itinerary generated successfully!ABC") SENTINEL = true /\
  trim (replace (lit "Itinerary generated successfully!ABC") SENTINEL []) = lit "ABC".
Proof. by vm_compute. Qed.

Example sentinel_not_at_start :
  startsWith (lit "xItinerary generated successfully!ABC") SENTINEL = false /\
  includes (lit "xItinerary generated successfully!ABC") SENTINEL = true /\
  log (snd (ws_onmessage plain installedHandler
              (lit "xItinerary generated successfully!ABC") st_idle))
    = [progressLine (lit "xItinerary generated successfully!ABC")].
Proof. by vm_compute. Qed.

Example prompt_anywhere :
  includes (lit "note: Please review the options and select the correct option now")
    PROMPT = true.
Proof. by vm_compute. Qed.

Example paris_payload :
  currentMarkdownContent st_completed = lit "# Paris Trip" /\
  log st_completed = [progressLine (lit "Searching flights...")].
Proof. by vm_compute. Qed.

(** On the ids of [templates/index.html] there is neither an itinerary
    element nor a copy button: past validation [startPlanning] clears the
    progress element and stops with a [TypeError], before any socket. *)
Example startPlanning_on_index_html :
  startPlanning
    (user_input "travelDate" (lit "2024-06-01")
       (user_input "destination" (lit "Paris") (mkState index_html None [] [] [])))
  = (Throw TypeError,
     user_input "travelDate" (lit "2024-06-01")
       (user_input "destination" (lit "Paris") (mkState index_html None [] [] []))).
Proof. by vm_compute. Qed.

(** The sessions used above are states a page reaches. *)
Example st_planning_reachable : reachable plain st_planning.
Proof.
  unfold st_planning, st_filled, st_idle.
  refine (reach_step _ _ _ _ (step_input _ "cluster-input" (lit "1") _)).
  refine (reach_step _ _ _ _ (step_message _ 0%nat (lit "Searching flights...") _)).
  refine (reach_step _ _ _ _ (step_open _ 0%nat _)).
  refine (reach_step _ _ _ _ (step_start _ _)).
  refine (reach_step _ _ _ _ (step_input _ "travelDate" (lit "2024-06-01") _)).
  refine (reach_step _ _ _ _ (step_input _ "destination" (lit "Paris") _)).
  apply reach_load.
Qed.

(** The scenario of a whole session: start, a progress line, a prompt,
    the answer "1", the itinerary. The answer goes out, the two lines are
    logged and the payload is stored; the option-selection box, which the
    prompt showed, is still shown at the end, since the script hides the
    element with id cluster-selection instead. *)
Example paris_session :
  let st1 := user_input "cluster-input" (lit "1") st_prompted in
  let st2 := snd (submitClusterSelection st1) in
  let st3 := snd (deliver plain 0
                    (lit "Itinerary generated successfully! # Paris Trip") st2) in
  isAwaitingSelection st_prompted = true /\
  fst (submitClusterSelection st1) = Normal tt /\
  outbound st2 = [[lit "1"]] /\
  isAwaitingSelection st2 = true /\
  currentMarkdownContent st3 = lit "# Paris Trip" /\
  log st3 =
    [progressLine
       (lit "Please review the options and select the correct option: 1) Hotel A 2) Hotel B")].
Proof. by vm_compute. Qed.

(** * The rest of the script's behaviour *)

(** ** Validation *)

Lemma blank_trim (s : list N) : trim s = [] <-> blank s.
Proof.
  split; [|apply trim_blank].
  intros H. destruct (trim_split s) as (l & r & Hl & Hr & Hs & _).
  rewrite H in Hs. rewrite Hs. unfold blank. apply Forall_app. by split.
Qed.

Lemma truthy_trim_blank (s : list N) : truthy (trim s) = false <-> blank s.
Proof.
  rewrite <- blank_trim. destruct (trim s); cbn; split; done.
Qed.

(** [validateInputs] in every state. *)
Lemma validateInputs_cases (st : State) :
  validateInputs st =
    match document st !! "destination", document st !! "travelDate" with
    | Some e1, Some e2 =>
        if negb (truthy (trim (value e1))) then
          (Normal false,
           with_effects (effects st ++ [Alert "Please enter a destination"]) st)
        else if negb (truthy (trim (value e2))) then
          (Normal false,
           with_effects (effects st ++ [Alert "Please enter a travel date"]) st)
        else (Normal true, st)
    | _, _ => (Throw TypeError, st)
    end.
Proof.
  destruct (document st !! "destination") as [e1|] eqn:H1.
  - destruct (document st !! "travelDate") as [e2|] eqn:H2.
    + apply (validateInputs_effect e1 e2 st H1 H2).
    + unfold validateInputs, bind, getElementById, getProp. by step_store.
  - unfold validateInputs, bind, getElementById, getProp. by step_store.
Qed.

(** X1. On a page with both inputs, [validateInputs] answers true exactly
    when neither the destination nor the date is empty or all white space;
    it then changes nothing and alerts nothing. *)
Theorem validateInputs_true_iff_filled (e1 e2 : Element) (st : State) :
  document st !! "destination" = Some e1 ->
  document st !! "travelDate" = Some e2 ->
  (fst (validateInputs st) = Normal true <->
   ~ blank (value e1) /\ ~ blank (value e2)) /\
  (fst (validateInputs st) = Normal true -> snd (validateInputs st) = st).
Proof.
  intros H1 H2. rewrite validateInputs_cases, H1, H2.
  rewrite <- !truthy_trim_blank.
  destruct (truthy (trim (value e1))), (truthy (trim (value e2))); cbn;
    (split; [split; [try done; intros [? ?]; congruence | try done; intros [? ?]; congruence] | done]).
Qed.

(** X2. The destination is looked at first: when it is blank the only
    effect is the one alert asking for a destination, whatever the date
    holds; the alert asking for a date needs a destination that is filled
    in. *)
Theorem validateInputs_destination_first (e1 e2 : Element) (st : State) :
  document st !! "destination" = Some e1 ->
  document st !! "travelDate" = Some e2 ->
  (blank (value e1) ->
   validateInputs st =
     (Normal false,
      with_effects (effects st ++ [Alert "Please enter a destination"]) st)) /\
  (~ blank (value e1) -> blank (value e2) ->
   validateInputs st =
     (Normal false,
      with_effects (effects st ++ [Alert "Please enter a travel date"]) st)).
Proof.
  intros H1 H2. rewrite validateInputs_cases, H1, H2.
  rewrite <- !truthy_trim_blank. split.
  - by intros ->.
  - intros Hd ->. by destruct (truthy (trim (value e1))).
Qed.

(** X3. Without the destination input or without the date input on the
    page, [validateInputs] stops with a [TypeError] before any check: no
    alert is raised, also when the input that is there is blank. *)
Theorem validateInputs_missing_input (st : State) :
  document st !! "destination" = None \/ document st !! "travelDate" = None ->
  validateInputs st = (Throw TypeError, st).
Proof.
  intros H. rewrite validateInputs_cases.
  destruct H as [-> | ->]; [done|]. by destruct (document st !! "destination").
Qed.

(** ** Start *)

Ltac unfold_store :=
  unfold valueOf, childrenOf, displayOf, log;
  cbn [document with_document with_currentMarkdownContent with_effects
       with_sockets with_ws ws sockets effects currentMarkdownContent fst snd].

Ltac solve_lookup :=
  repeat (rewrite lookup_insert; case_decide; simplify_eq);
  repeat match goal with
         | H : document _ !! _ = _ |- _ => rewrite H
         end;
  try done.

(** [startPlanning] in every state: what it may change and what it never
    changes. *)
Lemma startPlanning_account (st : State) :
  (forall id, valueOf id (snd (startPlanning st)) = valueOf id st) /\
  (currentMarkdownContent (snd (startPlanning st)) = currentMarkdownContent st \/
   currentMarkdownContent (snd (startPlanning st)) = []) /\
  (log (snd (startPlanning st)) = log st \/ log (snd (startPlanning st)) = []) /\
  ((sockets (snd (startPlanning st)) = sockets st /\
    ws (snd (startPlanning st)) = ws st) \/
   (fst (startPlanning st) = Normal tt /\
    sockets (snd (startPlanning st)) = sockets st ++ [freshSocket] /\
    ws (snd (startPlanning st)) = Some (length (sockets st)) /\
    currentMarkdownContent (snd (startPlanning st)) = [] /\
    log (snd (startPlanning st)) = [])).
Proof.
  unfold startPlanning, validateInputs, bind, getElementById, getProp, setProp, alert, ret,
    new_WebSocket, set_onmessage, put_currentMarkdownContent, put_ws.
  destruct (document st !! "destination") as [e1|] eqn:H1; step_store;
    [|by repeat split; auto].
  destruct (document st !! "travelDate") as [e2|] eqn:H2; step_store;
    [|by repeat split; auto].
  destruct (truthy (trim (value e1))); step_store; [|by repeat split; auto].
  destruct (truthy (trim (value e2))); step_store; [|by repeat split; auto].
  destruct (document st !! "progress") as [ep|] eqn:Hp;
    destruct (document st !! "option-selection") as [eo|] eqn:Ho;
    destruct (document st !! "itinerary") as [ei|] eqn:Hi;
    destruct (document st !! "copyButton") as [ec|] eqn:Hc;
    step_store.
  1: rewrite list_lookup_middle by done.
  all: split; [intros id; unfold_store; solve_lookup|].
  all: split; [unfold_store; auto|].
  all: split; [unfold_store; solve_lookup; auto|].
  2-16: left; by unfold_store.
  right. unfold_store. split; [done|]. split.
  { by rewrite insert_app_r_alt, Nat.sub_diag by done. }
  split; [done|]. split; [done|]. by solve_lookup.
Qed.

(** X4. [startPlanning] never closes, replaces or alters a socket that
    exists: in every state it leaves the sockets and [ws] as they were, or
    adds one fresh connecting socket at the end and points [ws] to it. *)
Theorem startPlanning_adds_at_most_one_socket (st : State) :
  (sockets (snd (startPlanning st)) = sockets st /\
   ws (snd (startPlanning st)) = ws st) \/
  (sockets (snd (startPlanning st)) = sockets st ++ [freshSocket] /\
   ws (snd (startPlanning st)) = Some (length (sockets st))).
Proof.
  destruct (startPlanning_account st) as (_ & _ & _ & [Hsame | Hnew]).
  - by left.
  - right. by destruct Hnew as (_ & ? & ? & _).
Qed.

(** X5. [startPlanning] hands nothing to the network and leaves every
    input as the user filled it: the destination and the date are checked
    but never sent, and no element's value changes. *)
Theorem startPlanning_sends_nothing (st : State) :
  (forall id, valueOf id (snd (startPlanning st)) = valueOf id st) /\
  (outbound (snd (startPlanning st)) = outbound st \/
   outbound (snd (startPlanning st)) = outbound st ++ [[]]).
Proof.
  destruct (startPlanning_account st) as (Hvalues & _ & _ & [[Hsock _] | Hnew]).
  - split; [exact Hvalues|]. left. unfold outbound. by rewrite Hsock.
  - split; [exact Hvalues|]. right. destruct Hnew as (_ & Hsock & _).
    unfold outbound. by rewrite Hsock, fmap_app.
Qed.

(** X6. With valid inputs but one of the four display elements missing,
    [startPlanning] stops with a [TypeError]: no socket is created, [ws]
    keeps its value and no alert is raised. *)
Theorem startPlanning_missing_element (e1 e2 : Element) (st : State) :
  document st !! "destination" = Some e1 ->
  document st !! "travelDate" = Some e2 ->
  ~ blank (value e1) -> ~ blank (value e2) ->
  ~ ready st ->
  fst (startPlanning st) = Throw TypeError /\
  sockets (snd (startPlanning st)) = sockets st /\
  ws (snd (startPlanning st)) = ws st /\
  effects (snd (startPlanning st)) = effects st.
Proof.
  intros H1 H2 B1 B2 Hnot.
  assert (truthy (trim (value e1)) = true) as T1.
  { destruct (truthy (trim (value e1))) eqn:E; [done|].
    by apply truthy_trim_blank in E. }
  assert (truthy (trim (value e2)) = true) as T2.
  { destruct (truthy (trim (value e2))) eqn:E; [done|].
    by apply truthy_trim_blank in E. }
  unfold startPlanning.
  rewrite (bind_normal _ _ true _ st)
    by (by rewrite (validateInputs_effect _ _ _ H1 H2), T1, T2).
  cbn [negb].
  unfold bind, getElementById, setProp, new_WebSocket, set_onmessage,
    put_currentMarkdownContent, put_ws.
  destruct (document st !! "progress") as [ep|] eqn:Hp;
    destruct (document st !! "option-selection") as [eo|] eqn:Ho;
    destruct (document st !! "itinerary") as [ei|] eqn:Hi;
    destruct (document st !! "copyButton") as [ec|] eqn:Hc;
    step_store.
  1: { destruct Hnot. unfold ready. rewrite Hp, Ho, Hi, Hc. repeat split; eauto. }
  all: by repeat split.
Qed.

(** ** Inbound messages *)

Section MoreInbound.

Variable marked_parse : list N -> list N.

Local Abbreviation handle := (ws_onmessage marked_parse installedHandler).

(** One inbound message on the rest of the page: the copy button, the
    itinerary, and everything the handler has no hold on. *)
Lemma onmessage_page (message : list N) (st : State) :
  ready st ->
  exists st',
    handle message st = (Normal tt, st') /\
    (forall id, valueOf id st' = valueOf id st) /\
    (forall id, id <> "progress" -> id <> "option-selection" ->
                id <> "itinerary" -> id <> "copyButton" ->
                document st' !! id = document st !! id) /\
    displayOf "copyButton" st' =
      (if startsWith message SENTINEL then Some "block"
       else displayOf "copyButton" st) /\
    childrenOf "itinerary" st' =
      (if startsWith message SENTINEL
       then Some (htmlNodes (marked_parse (trim (replace message SENTINEL []))))
       else childrenOf "itinerary" st).
Proof.
  intros (Hp & Ho & Hi & Hc).
  destruct Hp as [ep Hp], Ho as [eo Ho], Hi as [ei Hi], Hc as [ec Hc].
  unfold ws_onmessage, installedHandler, bind, setProp, requestAnimationFrame, ret,
    put_currentMarkdownContent, get_currentMarkdownContent.
  cbn [progressDiv optionSelectionDiv itineraryDiv copyButton].
  destruct (includes message PROMPT), (startsWith message SENTINEL); step_store.
  all: eexists; split; [reflexivity|].
  all: split; [intros id; unfold_store; solve_lookup|].
  all: split; [intros id ? ? ? ?; unfold_store;
               by rewrite ?lookup_insert_ne by done|].
  all: split; unfold_store; solve_lookup.
Qed.

Lemma onmessage_both (message : list N) (st st1 st2 : State) :
  handle message st = (Normal tt, st1) ->
  handle message st = (Normal tt, st2) -> st1 = st2.
Proof. intros H1 H2. congruence. Qed.

(** X7. A restart does not silence the connection before it: a progress
    line that arrives afterwards on an older open socket is written into
    the log of the new session, which held nothing until then. *)
Theorem stale_socket_writes_into_new_session
    (e1 e2 : Element) (i : nat) (s : WebSocket) (message : list N) (st : State) :
  ready st ->
  document st !! "destination" = Some e1 ->
  document st !! "travelDate" = Some e2 ->
  ~ blank (value e1) -> ~ blank (value e2) ->
  sockets st !! i = Some s ->
  readyState s = OPEN ->
  onmessage s = Some installedHandler ->
  startsWith message SENTINEL = false ->
  exists st1 st2,
    startPlanning st = (Normal tt, st1) /\
    log st1 = [] /\
    ws st1 = Some (length (sockets st)) /\
    i <> length (sockets st) /\
    deliver marked_parse i message st1 = (Normal tt, st2) /\
    log st2 = [progressLine message].
Proof.
  intros Hready H1 H2 B1 B2 Hs Hopen Hh Hm.
  assert (truthy (trim (value e1)) = true) as T1.
  { destruct (truthy (trim (value e1))) eqn:E; [done|].
    by apply truthy_trim_blank in E. }
  assert (truthy (trim (value e2)) = true) as T2.
  { destruct (truthy (trim (value e2))) eqn:E; [done|].
    by apply truthy_trim_blank in E. }
  destruct (startPlanning_effect e1 e2 st H1 H2 T1 T2 Hready)
    as (st1 & Hrun & Hready1 & Hlog & _ & _ & _ & _ & Hws & Hsock & _).
  destruct (onmessage_effect marked_parse message st1 Hready1)
    as (st2 & Hrun2 & _ & _ & _ & _ & _ & Hbranch).
  rewrite Hm in Hbranch. destruct Hbranch as [_ Hlog2].
  exists st1, st2. repeat (split; [done|]). split.
  { apply lookup_lt_Some in Hs. lia. }
  split; [|by rewrite Hlog2, Hlog].
  unfold deliver. rewrite Hsock, (lookup_app_l_Some _ _ _ _ Hs).
  destruct s as [u r h out]. cbn in Hopen, Hh. by rewrite Hopen, Hh.
Qed.

(** X8. No inbound line lowers the pending-selection flag: after any
    sequence of lines the flag is raised exactly when it was raised before
    or one of the lines contained the prompt text. *)
Theorem flag_after_messages (ms : list (list N)) (st : State) :
  ready st ->
  exists st',
    onmessages marked_parse installedHandler ms st = (Normal tt, st') /\
    isAwaitingSelection st' = isAwaitingSelection st || anyPrompt ms.
Proof.
  revert st. induction ms as [|m ms IH]; intros st Hready.
  - exists st. by rewrite orb_false_r.
  - destruct (onmessage_effect marked_parse m st Hready)
      as (st1 & Hrun & Hready1 & _ & _ & _ & Hflag & _).
    destruct (IH st1 Hready1) as (st2 & Hrun2 & Hflag2).
    exists st2. cbn [onmessages]. rewrite (bind_normal _ _ _ _ _ Hrun).
    split; [exact Hrun2|]. rewrite Hflag2. cbn [anyPrompt existsb].
    destruct (includes m PROMPT).
    + rewrite (awaiting_block st1 Hflag). cbn. by rewrite orb_true_r.
    + by rewrite (awaiting_same st st1 Hflag).
Qed.

Lemma rendered_step (message : list N) (st : State) :
  ready st ->
  exists st',
    handle message st = (Normal tt, st') /\ ready st' /\
    (if startsWith message SENTINEL then rendered marked_parse st'
     else rendered marked_parse st -> rendered marked_parse st').
Proof.
  intros Hready.
  destruct (onmessage_effect marked_parse message st Hready)
    as (st1 & Hrun & Hready1 & _ & _ & _ & _ & Hbranch).
  destruct (onmessage_page message st Hready)
    as (st2 & Hrun2 & _ & _ & Hcopy & Hitin).
  rewrite (onmessage_both _ _ _ _ Hrun2 Hrun) in *. clear st2 Hrun2.
  exists st1. split; [done|]. split; [done|].
  unfold rendered. destruct (startsWith message SENTINEL).
  - destruct Hbranch as (-> & _). by split.
  - destruct Hbranch as (-> & _). by rewrite Hcopy, Hitin.
Qed.

Lemma rendered_kept (ms : list (list N)) (st : State) :
  ready st -> rendered marked_parse st ->
  exists st',
    onmessages marked_parse installedHandler ms st = (Normal tt, st') /\ rendered marked_parse st'.
Proof.
  revert st. induction ms as [|m ms IH]; intros st Hready Hr.
  - by exists st.
  - destruct (rendered_step m st Hready) as (st1 & Hrun & Hready1 & Hstep).
    assert (rendered marked_parse st1) as Hr1 by (destruct (startsWith m SENTINEL); auto).
    destruct (IH st1 Hready1 Hr1) as (st2 & Hrun2 & Hr2).
    exists st2. cbn [onmessages]. by rewrite (bind_normal _ _ _ _ _ Hrun).
Qed.

(** X9. Once a Terminal line is among the lines received, the page shows
    what the script holds: the itinerary element carries the rendering of
    the current final content and the copy button is shown, whatever lines
    came before or after. *)
Theorem itinerary_shows_final_content (ms : list (list N)) (st : State) :
  ready st ->
  anyTerminal ms = true ->
  exists st',
    onmessages marked_parse installedHandler ms st = (Normal tt, st') /\
    childrenOf "itinerary" st' =
      Some (htmlNodes (marked_parse (currentMarkdownContent st'))) /\
    displayOf "copyButton" st' = Some "block".
Proof.
  revert st. induction ms as [|m ms IH]; intros st Hready Hany; [done|].
  destruct (rendered_step m st Hready) as (st1 & Hrun & Hready1 & Hstep).
  cbn [anyTerminal existsb] in Hany. cbn [onmessages].
  rewrite (bind_normal _ _ _ _ _ Hrun).
  destruct (startsWith m SENTINEL).
  - destruct (rendered_kept ms st1 Hready1 Hstep) as (st2 & Hrun2 & Hr2).
    by exists st2.
  - destruct (IH st1 Hready1 Hany) as (st2 & Hrun2 & Hr2). by exists st2.
Qed.

(** X10. An inbound line never sends anything and never touches what the
    user typed: the messages handed to the network, the value of every
    element, and every element other than the four the handler holds are
    as before. *)
Theorem onmessage_leaves_the_rest (message : list N) (st : State) :
  ready st ->
  exists st',
    handle message st = (Normal tt, st') /\
    outbound st' = outbound st /\
    (forall id, valueOf id st' = valueOf id st) /\
    (forall id, id <> "progress" -> id <> "option-selection" ->
                id <> "itinerary" -> id <> "copyButton" ->
                document st' !! id = document st !! id).
Proof.
  intros Hready.
  destruct (onmessage_effect marked_parse message st Hready)
    as (st1 & Hrun & _ & _ & Hsock & _).
  destruct (onmessage_page message st Hready)
    as (st2 & Hrun2 & Hvalues & Hrest & _).
  rewrite (onmessage_both _ _ _ _ Hrun2 Hrun) in *.
  exists st1. split; [done|]. split; [|by split].
  unfold outbound. by rewrite Hsock.
Qed.

End MoreInbound.

(** ** Selection *)

(** [submitClusterSelection] in every state. *)
Lemma submit_cases (st : State) :
  submitClusterSelection st =
    match document st !! "cluster-input" with
    | None => (Throw TypeError, st)
    | Some e =>
        match ws st with
        | None => (Normal tt, st)
        | Some sock =>
            if truthy (value e) then
              match sockets st !! sock with
              | None => (Throw TypeError, st)
              | Some s =>
                  match readyState s with
                  | CONNECTING => (Throw InvalidStateError, st)
                  | OPEN =>
                      afterSend e st
                        (with_sockets
                           (<[sock := mkWebSocket (url s) OPEN (onmessage s)
                                        (sent s ++ [value e])]> (sockets st)) st)
                  | CLOSING | CLOSED => afterSend e st st
                  end
              end
            else (Normal tt, st)
        end
    end.
Proof.
  unfold submitClusterSelection, afterSend, bind, getElementById, getProp, setProp, ret,
    ws_send, get_ws.
  destruct (document st !! "cluster-input") as [e|] eqn:H; step_store; [|done].
  destruct (ws st) as [sock|]; [|done].
  destruct (truthy (value e)); [|done].
  destruct (sockets st !! sock) as [s|] eqn:Hs; [|done].
  destruct (document st !! "cluster-selection") as [b|] eqn:Hb;
    destruct (readyState s); by step_store.
Qed.

(** X11. With an open socket in [ws], a non-empty text and both selection
    elements on the page, [submitClusterSelection] hands the text to that
    socket once and as typed (nothing is trimmed), leaves every other
    socket alone, clears the input and hides the cluster-selection box.
    The pending-selection flag that a prompt raised stays as it was. *)
Theorem submit_sends_text_as_typed
    (e b : Element) (sock : nat) (s : WebSocket) (st : State) :
  document st !! "cluster-input" = Some e ->
  document st !! "cluster-selection" = Some b ->
  value e <> [] ->
  ws st = Some sock ->
  sockets st !! sock = Some s ->
  readyState s = OPEN ->
  exists st',
    submitClusterSelection st = (Normal tt, st') /\
    sent <$> sockets st' !! sock = Some (sent s ++ [value e]) /\
    (forall j, j <> sock -> sockets st' !! j = sockets st !! j) /\
    valueOf "cluster-input" st' = Some [] /\
    displayOf "cluster-selection" st' = Some "none" /\
    isAwaitingSelection st' = isAwaitingSelection st.
Proof.
  intros He Hb Htext Hws Hs Hopen.
  rewrite submit_cases, He, Hws, (truthy_nonempty _ Htext), Hs, Hopen.
  unfold afterSend. rewrite Hb. eexists. split; [reflexivity|].
  unfold isAwaitingSelection. unfold_store.
  split. { rewrite list_lookup_insert_eq by (by apply lookup_lt_Some in Hs). done. }
  split. { intros j Hj. by rewrite list_lookup_insert_ne. }
  by solve_lookup.
Qed.

(** X12. While the socket in [ws] is still connecting, a submission
    fails with [InvalidStateError] and changes nothing: the text is not
    sent and stays in the input. *)
Theorem submit_while_connecting (e : Element) (sock : nat) (s : WebSocket) (st : State) :
  document st !! "cluster-input" = Some e ->
  value e <> [] ->
  ws st = Some sock ->
  sockets st !! sock = Some s ->
  readyState s = CONNECTING ->
  submitClusterSelection st = (Throw InvalidStateError, st).
Proof.
  intros He Htext Hws Hs Hconn.
  by rewrite submit_cases, He, Hws, (truthy_nonempty _ Htext), Hs, Hconn.
Qed.

(** X13. When the socket in [ws] is closing or closed, a submission is
    lost without a sign: nothing is handed to the network, yet the call
    returns normally, the input is cleared and the box is hidden. *)
Theorem submit_on_closed_socket_loses_text
    (e b : Element) (sock : nat) (s : WebSocket) (st : State) :
  document st !! "cluster-input" = Some e ->
  document st !! "cluster-selection" = Some b ->
  value e <> [] ->
  ws st = Some sock ->
  sockets st !! sock = Some s ->
  readyState s = CLOSING \/ readyState s = CLOSED ->
  exists st',
    submitClusterSelection st = (Normal tt, st') /\
    sockets st' = sockets st /\
    valueOf "cluster-input" st' = Some [] /\
    displayOf "cluster-selection" st' = Some "none".
Proof.
  intros He Hb Htext Hws Hs Hclosed.
  rewrite submit_cases, He, Hws, (truthy_nonempty _ Htext), Hs.
  unfold afterSend. rewrite Hb.
  destruct Hclosed as [-> | ->]; eexists; (split; [reflexivity|]);
    unfold_store; by solve_lookup.
Qed.

(** X14. Without an element with id cluster-input on the page,
    [submitClusterSelection] stops with a [TypeError] and changes nothing,
    whatever the session; with the input but without the cluster-selection
    box, the text of an open session is sent first and the [TypeError]
    comes after, so the input keeps the text. *)
Theorem submit_missing_element (st : State) :
  (document st !! "cluster-input" = None ->
   submitClusterSelection st = (Throw TypeError, st)) /\
  (forall e sock s,
     document st !! "cluster-input" = Some e ->
     document st !! "cluster-selection" = None ->
     value e <> [] -> ws st = Some sock ->
     sockets st !! sock = Some s -> readyState s = OPEN ->
     submitClusterSelection st =
       (Throw TypeError,
        with_sockets
          (<[sock := mkWebSocket (url s) OPEN (onmessage s) (sent s ++ [value e])]>
             (sockets st)) st)).
Proof.
  split.
  - intros H. by rewrite submit_cases, H.
  - intros e sock s He Hb Htext Hws Hs Hopen.
    rewrite submit_cases, He, Hws, (truthy_nonempty _ Htext), Hs, Hopen.
    unfold afterSend. by rewrite Hb.
Qed.

(** X15. A submission that went through cannot be repeated by accident:
    it leaves the input empty, so calling [submitClusterSelection] again
    right away sends nothing and changes nothing. *)
Theorem submit_twice_sends_once
    (e b : Element) (sock : nat) (s : WebSocket) (st : State) :
  document st !! "cluster-input" = Some e ->
  document st !! "cluster-selection" = Some b ->
  value e <> [] ->
  ws st = Some sock ->
  sockets st !! sock = Some s ->
  readyState s = OPEN ->
  exists st',
    submitClusterSelection st = (Normal tt, st') /\
    submitClusterSelection st' = (Normal tt, st') /\
    sent <$> sockets st' !! sock = Some (sent s ++ [value e]).
Proof.
  intros He Hb Htext Hws Hs Hopen.
  rewrite submit_cases, He, Hws, (truthy_nonempty _ Htext), Hs, Hopen.
  unfold afterSend. rewrite Hb. eexists. split; [reflexivity|]. split.
  - rewrite submit_cases. unfold_store. by rewrite lookup_insert_eq, Hws.
  - unfold_store.
    rewrite list_lookup_insert_eq by (by apply lookup_lt_Some in Hs). done.
Qed.

(** What [submitClusterSelection] never changes. *)
Lemma submit_account (st : State) :
  log (snd (submitClusterSelection st)) = log st /\
  currentMarkdownContent (snd (submitClusterSelection st)) = currentMarkdownContent st /\
  ws (snd (submitClusterSelection st)) = ws st /\
  isAwaitingSelection (snd (submitClusterSelection st)) = isAwaitingSelection st /\
  effects (snd (submitClusterSelection st)) = effects st /\
  (forall id, id <> "cluster-input" -> id <> "cluster-selection" ->
              document (snd (submitClusterSelection st)) !! id = document st !! id) /\
  (forall j, ws st <> Some j ->
             sockets (snd (submitClusterSelection st)) !! j = sockets st !! j).
Proof.
  rewrite submit_cases. unfold afterSend, isAwaitingSelection.
  destruct (document st !! "cluster-input") as [e|] eqn:He; [|done].
  destruct (ws st) as [sock|] eqn:Hws; [|done].
  destruct (truthy (value e)); [|done].
  destruct (sockets st !! sock) as [s|] eqn:Hs; [|done].
  destruct (document st !! "cluster-selection") as [b|] eqn:Hb;
    destruct (readyState s); unfold_store.
  all: repeat (split; [by solve_lookup|]).
  all: try (split; [intros id ? ?; by rewrite ?lookup_insert_ne by done|]).
  all: try (split; [done|]).
  all: intros j Hj; try done.
  all: rewrite list_lookup_insert_ne; [done | congruence].
Qed.

(** X16. In no state does [submitClusterSelection] touch the progress log,
    the final content, [ws], the pending-selection flag, the alerts, or
    any element other than the cluster input and the cluster box; and the
    sockets it is not pointed at keep all they hold. *)
Theorem submit_leaves_the_session (st : State) :
  log (snd (submitClusterSelection st)) = log st /\
  currentMarkdownContent (snd (submitClusterSelection st)) = currentMarkdownContent st /\
  ws (snd (submitClusterSelection st)) = ws st /\
  isAwaitingSelection (snd (submitClusterSelection st)) = isAwaitingSelection st /\
  effects (snd (submitClusterSelection st)) = effects st /\
  (forall id, id <> "cluster-input" -> id <> "cluster-selection" ->
              document (snd (submitClusterSelection st)) !! id = document st !! id) /\
  (forall j, ws st <> Some j ->
             sockets (snd (submitClusterSelection st)) !! j = sockets st !! j).
Proof. exact (submit_account st). Qed.

(** ** What holds in every state a page can reach *)

Lemma trimmed_nil : trimmed [].
Proof. split; intros c t H; [done | by destruct t]. Qed.

Lemma trimmed_trim (s : list N) : trimmed (trim s).
Proof. destruct (trim_split s) as (l & r & _ & _ & _ & Hhead & Hlast). by split. Qed.

Lemma submit_sockets (st : State) :
  sockets (snd (submitClusterSelection st)) = sockets st \/
  exists sock s t,
    sockets st !! sock = Some s /\ t <> [] /\
    sockets (snd (submitClusterSelection st)) =
      <[sock := mkWebSocket (url s) OPEN (onmessage s) (sent s ++ [t])]> (sockets st).
Proof.
  rewrite submit_cases. unfold afterSend.
  destruct (document st !! "cluster-input") as [e|]; [|by left].
  destruct (ws st) as [sock|]; [|by left].
  destruct (truthy (value e)) eqn:T; [|by left].
  destruct (sockets st !! sock) as [s|] eqn:Hs; [|by left].
  destruct (readyState s); try (by left);
    try (destruct (document st !! "cluster-selection"); by left).
  right. exists sock, s, (value e). split; [done|]. split; [by destruct (value e)|].
  by destruct (document st !! "cluster-selection").
Qed.

Section Reachable.

Variable marked_parse : list N -> list N.

Lemma deliver_account (sock : nat) (message : list N) (st : State) :
  sound st ->
  exists st',
    deliver marked_parse sock message st = (Normal tt, st') /\
    sockets st' = sockets st /\ ws st' = ws st /\
    (currentMarkdownContent st' = currentMarkdownContent st \/
     exists s, currentMarkdownContent st' = trim s) /\
    (log st' = log st \/
     exists m, startsWith m SENTINEL = false /\ log st' = log st ++ [progressLine m]).
Proof.
  intros Hsound. unfold deliver.
  destruct (sockets st !! sock) as [[u [] [h|] out]|] eqn:Hs;
    try (exists st; by repeat split; auto).
  destruct (Hsound sock _ h Hs eq_refl) as [-> Hready].
  destruct (onmessage_effect marked_parse message st Hready)
    as (st' & Hrun & _ & Hws & Hsock & _ & _ & Hbranch).
  exists st'. repeat (split; [done|]).
  destruct (startsWith message SENTINEL) eqn:E.
  - destruct Hbranch as (Hc & Hl & _). split; [right; eauto | by left].
  - destruct Hbranch as (Hc & Hl). split; [by left | right; eauto].
Qed.

Lemma insert_same_shape (P : WebSocket -> Prop) (i : nat) (s s' : WebSocket)
    (l : list WebSocket) :
  l !! i = Some s -> (P s -> P s') -> Forall P l -> Forall P (<[i := s']> l).
Proof.
  intros Hs Himp Hall. apply Forall_insert; [done|].
  apply Himp. by apply (Forall_lookup_1 _ _ _ _ Hall Hs).
Qed.

Lemma step_tidy (st st' : State) :
  step marked_parse st st' -> sound st -> tidy st -> tidy st'.
Proof.
  intros Hstep Hsound (Hlast & Huni & Hsent & Htrim & Hlog).
  unfold tidy, wsIsLast, socketsUniform, sentNonEmpty, logClean in *.
  destruct Hstep.
  - destruct (startPlanning_account st) as (_ & Hc & Hl & [[Hsock Hws] | Hnew]).
    + rewrite Hsock, Hws. repeat (split; [done|]). split.
      * destruct Hc as [-> | ->]; [done | apply trimmed_nil].
      * intros Hne. destruct Hl as [-> | ->]; [by apply Hlog | constructor].
    + destruct Hnew as (_ & Hsock & Hws & Hc' & Hl').
      rewrite Hsock, Hws, Hc', Hl'. split.
      { rewrite length_app. cbn. lia. }
      split. { apply Forall_app. split; [done|]. by repeat constructor. }
      split. { apply Forall_app. split; [done|]. by repeat constructor. }
      split; [apply trimmed_nil | by constructor].
  - destruct (submit_account st) as (Hl & Hc & Hws & _).
    rewrite Hl, Hc, Hws.
    destruct (submit_sockets st) as [-> | (sock & s & t & Hs & Ht & ->)]; [done|].
    split. { destruct (ws st); [by rewrite length_insert | by rewrite Hlast in Hs]. }
    split. { apply (insert_same_shape _ _ s); [done | done | done]. }
    split.
    { apply (insert_same_shape _ _ s); [done | | done].
      cbn. intros Hold. apply Forall_app. split; [done | by constructor]. }
    split; [done|]. intros Hne. apply Hlog. intros Hnil. rewrite Hnil in Hs. done.
  - destruct (deliver_account sock message st Hsound)
      as (st' & -> & Hsock & Hws & Hc & Hl).
    cbn [snd]. rewrite Hsock, Hws. repeat (split; [done|]). split.
    + destruct Hc as [-> | [s ->]]; [done | apply trimmed_trim].
    + intros Hne. destruct Hl as [-> | (m & Hm & ->)]; [by apply Hlog|].
      apply Forall_app. split; [by apply Hlog|]. constructor; [|done]. by exists m.
  - unfold socket_open. destruct (sockets st !! sock) as [s|] eqn:Hs; [|done].
    cbn [sockets ws with_sockets currentMarkdownContent].
    split. { destruct (ws st); [by rewrite length_insert | by rewrite Hlast in Hs]. }
    split. { by apply (insert_same_shape _ _ s). }
    split. { by apply (insert_same_shape _ _ s). }
    split; [done|]. intros Hne. apply Hlog. intros Hnil. rewrite Hnil in Hs. done.
  - unfold socket_close. destruct (sockets st !! sock) as [s|] eqn:Hs; [|done].
    cbn [sockets ws with_sockets currentMarkdownContent].
    split. { destruct (ws st); [by rewrite length_insert | by rewrite Hlast in Hs]. }
    split. { by apply (insert_same_shape _ _ s). }
    split. { by apply (insert_same_shape _ _ s). }
    split; [done|]. intros Hne. apply Hlog. intros Hnil. rewrite Hnil in Hs. done.
  - unfold user_input. cbn [sockets ws with_document currentMarkdownContent].
    repeat (split; [done|]). intros Hne.
    assert (log (with_document (alter (set_value text) id (document st)) st) = log st)
      as ->; [|by apply Hlog].
    unfold log. cbn [document with_document]. rewrite lookup_alter.
    case_decide; [subst|done]. by destruct (document st !! "progress").
Qed.

Lemma reachable_tidy (st : State) : reachable marked_parse st -> tidy st.
Proof.
  induction 1 as [d | st st' Hreach IH Hstep].
  - split; [done|]. split; [constructor|]. split; [constructor|].
    split; [apply trimmed_nil|]. intros Hne. by destruct Hne.
  - apply (step_tidy st); [done | by apply (reachable_sound marked_parse) | done].
Qed.

(** X18. In every state a page can reach, [ws] is unset while no socket
    exists and is the socket created last otherwise: a submission always
    goes to the newest connection. *)
Theorem ws_is_the_newest_socket (st : State) :
  reachable marked_parse st ->
  match ws st with
  | None => sockets st = []
  | Some i => S i = length (sockets st)
  end.
Proof. intros H. by destruct (reachable_tidy st H) as (? & _). Qed.

(** X19. In every state a page can reach, each socket connects to the one
    hard-wired address and carries the message handler: no socket exists
    without a handler. *)
Theorem every_socket_has_the_handler (st : State) :
  reachable marked_parse st ->
  Forall (fun s => url s = serverUrl /\ onmessage s = Some installedHandler)
         (sockets st).
Proof. intros H. by destruct (reachable_tidy st H) as (_ & ? & _). Qed.

(** X20. In every state a page can reach, no message handed to the
    network is the empty string. *)
Theorem no_empty_message_sent (st : State) :
  reachable marked_parse st ->
  Forall (fun s => Forall (fun m => m <> []) (sent s)) (sockets st).
Proof. intros H. by destruct (reachable_tidy st H) as (_ & _ & ? & _). Qed.

(** X21. In every state a page can reach, the final content neither
    begins nor ends with white space. *)
Theorem final_content_is_trimmed (st : State) :
  reachable marked_parse st ->
  (forall c t, currentMarkdownContent st = c :: t -> isWhiteSpace c = false) /\
  (forall c t, currentMarkdownContent st = t ++ [c] -> isWhiteSpace c = false).
Proof. intros H. by destruct (reachable_tidy st H) as (_ & _ & _ & ? & _). Qed.

(** X22. In every state a page can reach, once a socket exists the log
    holds progress lines only, and none of them begins with the sentinel:
    an itinerary never shows up in the log. *)
Theorem log_holds_progress_lines_only (st : State) :
  reachable marked_parse st ->
  sockets st <> [] ->
  Forall (fun n => exists message,
                     n = progressLine message /\
                     startsWith message SENTINEL = false)
         (log st).
Proof. intros H. by destruct (reachable_tidy st H) as (_ & _ & _ & _ & ?). Qed.

End Reachable.

(** ** Copying the report *)

Section Copy.

Variable marked_parse : list N -> list N.

(** X23. A Terminal line whose payload is blank shows the copy button but
    leaves nothing to copy: the final content is the empty string, and
    [copyReport] then requests no write and changes nothing. *)
Theorem blank_itinerary_leaves_nothing_to_copy (rest : list N) (st : State) :
  ready st ->
  blank rest ->
  exists st',
    ws_onmessage marked_parse installedHandler (SENTINEL ++ rest) st = (Normal tt, st') /\
    displayOf "copyButton" st' = Some "block" /\
    currentMarkdownContent st' = [] /\
    forall w, store w = st' -> copyReport w = w.
Proof.
  intros Hready Hblank.
  destruct (onmessage_effect marked_parse (SENTINEL ++ rest) st Hready)
    as (st' & Hrun & _ & _ & _ & _ & _ & Hbranch).
  rewrite (proj2 (startsWith_prefix _ _)), replace_sentinel in Hbranch by eauto.
  destruct Hbranch as (Hc & _ & Hcopy). rewrite (trim_blank _ Hblank) in Hc.
  exists st'. repeat (split; [done|]).
  intros w Hw. unfold copyReport. by rewrite Hw, Hc.
Qed.

(** X26. What reaches the clipboard is the final content at the moment of
    the call: a Terminal line that arrives while the write is pending
    replaces the final content on the page, and the write, once done,
    still leaves the older content on the clipboard. *)
Theorem copy_takes_content_at_call (rest : list N) (w : Window) :
  ready (store w) ->
  currentMarkdownContent (store w) <> [] ->
  writes w = [] ->
  exists st',
    ws_onmessage marked_parse installedHandler (SENTINEL ++ rest) (store w)
      = (Normal tt, st') /\
    currentMarkdownContent st' = trim rest /\
    clipboard (writeSettled 0 true (withStore st' (copyReport w)))
      = currentMarkdownContent (store w).
Proof.
  intros Hready Hc Hw.
  destruct (onmessage_effect marked_parse (SENTINEL ++ rest) (store w) Hready)
    as (st' & Hrun & Hready' & _ & _ & _ & _ & Hbranch).
  rewrite (proj2 (startsWith_prefix _ _)), replace_sentinel in Hbranch by eauto.
  destruct Hbranch as (Hc' & _). exists st'. repeat (split; [done|]).
  unfold copyReport. rewrite (truthy_nonempty _ Hc).
  unfold writeSettled, withStore, copyReport_resume. cbn [writes store]. rewrite Hw.
  cbn. destruct Hready' as (_ & _ & _ & [b ->]). done.
Qed.

End Copy.

(** One copy whose write is done, from a window with no write pending. *)
Lemma copy_once (b : Element) (w : Window) :
  document (store w) !! "copyButton" = Some b ->
  currentMarkdownContent (store w) <> [] ->
  writes w = [] ->
  writeSettled 0 true (copyReport w) =
    mkWindow (store w) (<["copyButton" := lit "Copied!"]> (textContent w))
             (currentMarkdownContent (store w)) []
             (timeouts w ++ [("copyButton", textOf "copyButton" w)]) (console w).
Proof.
  intros Hb Hc Hw. unfold copyReport. rewrite (truthy_nonempty _ Hc).
  unfold writeSettled. cbn [writes]. rewrite Hw. cbn [app lookup list_lookup].
  unfold copyReport_resume. cbn [store]. by rewrite Hb.
Qed.

(** X24. One copy, from a window with nothing pending: when the write is
    done the clipboard holds the final content and the button says
    "Copied!"; when the timeout has run, every element has the text it had
    before, nothing is pending, and nothing was logged. *)
Theorem copy_then_label_restored (b : Element) (w : Window) :
  document (store w) !! "copyButton" = Some b ->
  currentMarkdownContent (store w) <> [] ->
  writes w = [] ->
  timeouts w = [] ->
  clipboard (writeSettled 0 true (copyReport w)) = currentMarkdownContent (store w) /\
  textOf "copyButton" (writeSettled 0 true (copyReport w)) = lit "Copied!" /\
  (forall id, textOf id (timeoutFires (writeSettled 0 true (copyReport w)))
              = textOf id w) /\
  writes (timeoutFires (writeSettled 0 true (copyReport w))) = [] /\
  timeouts (timeoutFires (writeSettled 0 true (copyReport w))) = [] /\
  store (timeoutFires (writeSettled 0 true (copyReport w))) = store w /\
  console (timeoutFires (writeSettled 0 true (copyReport w))) = console w.
Proof.
  intros Hb Hc Hw Ht. rewrite (copy_once b w Hb Hc Hw), Ht.
  unfold timeoutFires, textOf. cbn [timeouts app textContent clipboard writes store console].
  rewrite lookup_insert_eq. repeat (split; [done|]). split; [|done].
  intros id. rewrite insert_insert_eq, lookup_insert.
  case_decide; [by subst|done].
Qed.

(** X25. Two copies in a row, the second before the timeout of the first
    has run: the second call takes "Copied!" for the button's own text, so
    when both timeouts have run the button still says "Copied!", whatever
    it said at the start. *)
Theorem overlapping_copies_leave_copied (b : Element) (w : Window) :
  document (store w) !! "copyButton" = Some b ->
  currentMarkdownContent (store w) <> [] ->
  writes w = [] ->
  timeouts w = [] ->
  textOf "copyButton"
    (timeoutFires
       (timeoutFires
          (writeSettled 0 true
             (copyReport (writeSettled 0 true (copyReport w))))))
    = lit "Copied!" /\
  timeouts
    (timeoutFires
       (timeoutFires
          (writeSettled 0 true
             (copyReport (writeSettled 0 true (copyReport w))))))
    = [].
Proof.
  intros Hb Hc Hw Ht. rewrite (copy_once b w Hb Hc Hw), Ht.
  match goal with
  | |- context [copyReport ?w1] => rewrite (copy_once b w1 Hb Hc eq_refl)
  end.
  unfold timeoutFires, textOf. cbn [timeouts app textContent clipboard writes store console].
  by rewrite !lookup_insert_eq.
Qed.

(** ** These properties at concrete sessions *)

Ltac not_blank :=
  let H := fresh in intros H; apply Forall_inv in H; vm_compute in H; discriminate H.

Ltac planning_reachable :=
  unfold st_planning, st_filled, st_idle;
  refine (reach_step _ _ _ _ (step_input _ "cluster-input" (lit "1") _));
  refine (reach_step _ _ _ _ (step_message _ 0%nat (lit "Searching flights...") _));
  refine (reach_step _ _ _ _ (step_open _ 0%nat _));
  refine (reach_step _ _ _ _ (step_start _ _));
  refine (reach_step _ _ _ _ (step_input _ "travelDate" (lit "2024-06-01") _));
  refine (reach_step _ _ _ _ (step_input _ "destination" (lit "Paris") _));
  apply reach_load.

Lemma validateInputs_true_iff_filled_witness :
  fst (validateInputs st_filled) = Normal true <->
  ~ blank (lit "Paris") /\ ~ blank (lit "2024-06-01").
Proof.
  apply (validateInputs_true_iff_filled
           (mkElement (lit "Paris") "" []) (mkElement (lit "2024-06-01") "" [])
           st_filled); vm_compute; reflexivity.
Defined.

Lemma validateInputs_destination_first_witness :
  validateInputs st_idle =
    (Normal false,
     with_effects (effects st_idle ++ [Alert "Please enter a destination"]) st_idle).
Proof.
  apply (validateInputs_destination_first shown shown st_idle).
  - vm_compute. reflexivity.
  - vm_compute. reflexivity.
  - apply Forall_nil_2.
Defined.

Lemma validateInputs_missing_input_witness :
  validateInputs (mkState (delete "travelDate" page) None [] [] [])
    = (Throw TypeError, mkState (delete "travelDate" page) None [] [] []).
Proof.
  apply (validateInputs_missing_input (mkState (delete "travelDate" page) None [] [] [])).
  right. vm_compute. reflexivity.
Defined.

Lemma startPlanning_missing_element_witness :
  fst (startPlanning
         (user_input "travelDate" (lit "2024-06-01")
            (user_input "destination" (lit "Paris") (mkState index_html None [] [] []))))
    = Throw TypeError.
Proof.
  apply (startPlanning_missing_element
           (mkElement (lit "Paris") "" []) (mkElement (lit "2024-06-01") "" [])
           (user_input "travelDate" (lit "2024-06-01")
              (user_input "destination" (lit "Paris") (mkState index_html None [] [] [])))).
  - vm_compute. reflexivity.
  - vm_compute. reflexivity.
  - not_blank.
  - not_blank.
  - intros (_ & _ & [x Hx] & _). vm_compute in Hx. discriminate Hx.
Defined.

Lemma stale_socket_writes_into_new_session_witness :
  exists st1 st2,
    startPlanning st_planning = (Normal tt, st1) /\
    log st1 = [] /\
    ws st1 = Some (length (sockets st_planning)) /\
    0%nat <> length (sockets st_planning) /\
    deliver plain 0 (lit "late") st1 = (Normal tt, st2) /\
    log st2 = [progressLine (lit "late")].
Proof.
  apply (stale_socket_writes_into_new_session plain
           (mkElement (lit "Paris") "" []) (mkElement (lit "2024-06-01") "" [])
           0%nat (mkWebSocket serverUrl OPEN (Some installedHandler) [])
           (lit "late") st_planning).
  - ready_by_computation.
  - vm_compute. reflexivity.
  - vm_compute. reflexivity.
  - not_blank.
  - not_blank.
  - vm_compute. reflexivity.
  - reflexivity.
  - reflexivity.
  - vm_compute. reflexivity.
Defined.

Lemma flag_after_messages_witness :
  exists st',
    onmessages plain installedHandler [lit "a"; lit "see: " ++ PROMPT; lit "b"] st_planning
      = (Normal tt, st') /\
    isAwaitingSelection st' =
      isAwaitingSelection st_planning ||
      anyPrompt [lit "a"; lit "see: " ++ PROMPT; lit "b"].
Proof.
  apply (flag_after_messages plain [lit "a"; lit "see: " ++ PROMPT; lit "b"] st_planning).
  ready_by_computation.
Defined.

Lemma itinerary_shows_final_content_witness :
  exists st',
    onmessages plain installedHandler [lit "a"; SENTINEL ++ lit " # Paris"; lit "b"]
      st_planning = (Normal tt, st') /\
    childrenOf "itinerary" st' =
      Some (htmlNodes (plain (currentMarkdownContent st'))) /\
    displayOf "copyButton" st' = Some "block".
Proof.
  apply (itinerary_shows_final_content plain
           [lit "a"; SENTINEL ++ lit " # Paris"; lit "b"] st_planning).
  - ready_by_computation.
  - vm_compute. reflexivity.
Defined.

Lemma onmessage_leaves_the_rest_witness :
  exists st',
    ws_onmessage plain installedHandler (lit "Searching hotels...") st_planning
      = (Normal tt, st') /\
    outbound st' = outbound st_planning /\
    (forall id, valueOf id st' = valueOf id st_planning) /\
    (forall id, id <> "progress" -> id <> "option-selection" ->
                id <> "itinerary" -> id <> "copyButton" ->
                document st' !! id = document st_planning !! id).
Proof.
  apply (onmessage_leaves_the_rest plain (lit "Searching hotels...") st_planning).
  ready_by_computation.
Defined.

Lemma submit_sends_text_as_typed_witness :
  exists st',
    submitClusterSelection st_planning = (Normal tt, st') /\
    sent <$> sockets st' !! 0%nat = Some ([] ++ [lit "1"]) /\
    (forall j, j <> 0%nat -> sockets st' !! j = sockets st_planning !! j) /\
    valueOf "cluster-input" st' = Some [] /\
    displayOf "cluster-selection" st' = Some "none" /\
    isAwaitingSelection st' = isAwaitingSelection st_planning.
Proof.
  apply (submit_sends_text_as_typed
           (mkElement (lit "1") "" []) hidden 0%nat
           (mkWebSocket serverUrl OPEN (Some installedHandler) []) st_planning).
  - vm_compute. reflexivity.
  - vm_compute. reflexivity.
  - vm_compute. discriminate.
  - reflexivity.
  - vm_compute. reflexivity.
  - reflexivity.
Defined.

Lemma submit_while_connecting_witness :
  submitClusterSelection
    (user_input "cluster-input" (lit "1") (snd (startPlanning st_filled)))
  = (Throw InvalidStateError,
     user_input "cluster-input" (lit "1") (snd (startPlanning st_filled))).
Proof.
  apply (submit_while_connecting (mkElement (lit "1") "" []) 0%nat freshSocket
           (user_input "cluster-input" (lit "1") (snd (startPlanning st_filled)))).
  - vm_compute. reflexivity.
  - vm_compute. discriminate.
  - vm_compute. reflexivity.
  - vm_compute. reflexivity.
  - reflexivity.
Defined.

Lemma submit_on_closed_socket_loses_text_witness :
  exists st',
    submitClusterSelection (socket_close 0 st_planning) = (Normal tt, st') /\
    sockets st' = sockets (socket_close 0 st_planning) /\
    valueOf "cluster-input" st' = Some [] /\
    displayOf "cluster-selection" st' = Some "none".
Proof.
  apply (submit_on_closed_socket_loses_text
           (mkElement (lit "1") "" []) hidden 0%nat
           (mkWebSocket serverUrl CLOSED (Some installedHandler) [])
           (socket_close 0 st_planning)).
  - vm_compute. reflexivity.
  - vm_compute. reflexivity.
  - vm_compute. discriminate.
  - reflexivity.
  - vm_compute. reflexivity.
  - right. reflexivity.
Defined.

Lemma submit_twice_sends_once_witness :
  exists st',
    submitClusterSelection st_planning = (Normal tt, st') /\
    submitClusterSelection st' = (Normal tt, st') /\
    sent <$> sockets st' !! 0%nat = Some ([] ++ [lit "1"]).
Proof.
  apply (submit_twice_sends_once
           (mkElement (lit "1") "" []) hidden 0%nat
           (mkWebSocket serverUrl OPEN (Some installedHandler) []) st_planning).
  - vm_compute. reflexivity.
  - vm_compute. reflexivity.
  - vm_compute. discriminate.
  - reflexivity.
  - vm_compute. reflexivity.
  - reflexivity.
Defined.

Lemma handler_never_throws_witness :
  exists st', deliver plain 0 (lit "Searching hotels...") st_planning = (Normal tt, st').
Proof.
  apply (handler_never_throws plain 0%nat (lit "Searching hotels...") st_planning).
  planning_reachable.
Defined.

Lemma ws_is_the_newest_socket_witness :
  match ws st_planning with
  | None => sockets st_planning = []
  | Some i => S i = length (sockets st_planning)
  end.
Proof. apply (ws_is_the_newest_socket plain st_planning). planning_reachable. Defined.

Lemma every_socket_has_the_handler_witness :
  Forall (fun s => url s = serverUrl /\ onmessage s = Some installedHandler)
         (sockets st_planning).
Proof. apply (every_socket_has_the_handler plain st_planning). planning_reachable. Defined.

Lemma no_empty_message_sent_witness :
  Forall (fun s => Forall (fun m => m <> []) (sent s)) (sockets st_planning).
Proof. apply (no_empty_message_sent plain st_planning). planning_reachable. Defined.

Lemma final_content_is_trimmed_witness :
  (forall c t, currentMarkdownContent st_planning = c :: t -> isWhiteSpace c = false) /\
  (forall c t, currentMarkdownContent st_planning = t ++ [c] -> isWhiteSpace c = false).
Proof. apply (final_content_is_trimmed plain st_planning). planning_reachable. Defined.

Lemma log_holds_progress_lines_only_witness :
  Forall (fun n => exists message,
                     n = progressLine message /\
                     startsWith message SENTINEL = false)
         (log st_planning).
Proof.
  apply (log_holds_progress_lines_only plain st_planning).
  - planning_reachable.
  - vm_compute. discriminate.
Defined.

Lemma blank_itinerary_leaves_nothing_to_copy_witness :
  exists st',
    ws_onmessage plain installedHandler (SENTINEL ++ lit "  ") st_planning
      = (Normal tt, st') /\
    displayOf "copyButton" st' = Some "block" /\
    currentMarkdownContent st' = [] /\
    forall w, store w = st' -> copyReport w = w.
Proof.
  apply (blank_itinerary_leaves_nothing_to_copy plain (lit "  ") st_planning).
  - ready_by_computation.
  - repeat constructor.
Defined.

Lemma copy_then_label_restored_witness :
  clipboard (writeSettled 0 true (copyReport w_completed)) = lit "# Paris Trip" /\
  textOf "copyButton" (writeSettled 0 true (copyReport w_completed)) = lit "Copied!" /\
  textOf "copyButton" (timeoutFires (writeSettled 0 true (copyReport w_completed)))
    = lit "Copy".
Proof.
  destruct (copy_then_label_restored (mkElement [] "block" []) w_completed) as (H1 & H2 & H3 & _).
  - vm_compute. reflexivity.
  - vm_compute. discriminate.
  - reflexivity.
  - reflexivity.
  - split; [exact H1|]. split; [exact H2|]. exact (H3 "copyButton").
Defined.

Lemma overlapping_copies_leave_copied_witness :
  textOf "copyButton"
    (timeoutFires
       (timeoutFires
          (writeSettled 0 true
             (copyReport (writeSettled 0 true (copyReport w_completed))))))
    = lit "Copied!" /\
  textOf "copyButton" w_completed = lit "Copy".
Proof.
  split; [|reflexivity].
  apply (overlapping_copies_leave_copied (mkElement [] "block" []) w_completed).
  - vm_compute. reflexivity.
  - vm_compute. discriminate.
  - reflexivity.
  - reflexivity.
Defined.

Lemma copy_takes_content_at_call_witness :
  exists st',
    ws_onmessage plain installedHandler (SENTINEL ++ lit " v2") (store w_completed)
      = (Normal tt, st') /\
    currentMarkdownContent st' = trim (lit " v2") /\
    clipboard (writeSettled 0 true (withStore st' (copyReport w_completed)))
      = currentMarkdownContent (store w_completed).
Proof.
  apply (copy_takes_content_at_call plain (lit " v2") w_completed).
  - ready_by_computation.
  - vm_compute. discriminate.
  - reflexivity.
Defined.
